(* ===== verification/_CoqProject ===== *)
-Q . S2P
Prelude.v
Json.v
Types.v
Storage.v
StateStore.v
Users.v
Purchases.v
Items.v
Transactions.v
RedeemCodes.v
Tickets.v
Facade.v
JsonCodec.v
