(* ===== verification/Prelude.v ===== *)
(** * A verified model of the storefront data-access layer [src/db.ts]

    ** The program

    The repository's only source file, [src/db.ts], exports one object
    [DB]: a facade over a single JSON document kept in the browser's
    [localStorage] under the key ['ebon_shop_db'].  The document
    ([DBState], lines 10-17) holds six ordered collections: users, items,
    purchases, transactions, redeem codes and tickets.  Every method of
    [DB] reloads the whole document ([getInitialState], lines 19-30:
    [JSON.parse] of the stored blob, or the empty document when nothing is
    stored), reads or mutates it in memory through [Array.prototype.find],
    [findIndex], [filter] and [push] and, when it mutates, writes the whole
    document back ([saveState], lines 32-34).  The methods interact only
    through that document: a purchase reads the user and the item and
    writes both plus the purchase log; an approved transaction and a
    redeemed code credit a user; the ticket methods stamp tickets with the
    clock.

    ** The files

    - [Prelude] (this file): the notations [===] and [!==] (scope
      [js_scope]), the array operations as the code uses them ([push],
      [find_update] for "mutate the element [find] returned", [findIndex]
      returning [-1]), their shared lemmas in the hint database [js], and
      the tactics [js_decide] and [witness_premise].
    - [Json]: [JSON.stringify] ([json_stringify]) and [JSON.parse]
      ([json_parse]) on JSON values with integer numbers: the printer
      with the escapes of QuoteJSONString, and a recursive-descent parser
      of the JSON grammar whose recursion is bounded by fuel.
    - [Types]: the records and enums of [types.ts] (not in the
      repository; modelled from the spec's data model), [DBState], the
      empty document and one setter per collection.
    - [Storage]: the platform services as interfaces: the type classes
      [Storage] ([localStorage.getItem]/[setItem]) and [Codec]
      ([JSON.stringify]/[JSON.parse] and the truthiness test
      [if (stored)]), each with a class of laws; the instances
      [localStorage_storage] (a [gmap string V]) and [document_codec].
    - [StateStore]: the monad [DB LS A := LS -> (JsError + A) * LS] of
      state passing with exceptions ([JSON.parse] may throw a
      [SyntaxError] that nothing catches), [getInitialState], [saveState],
      the environment [Env] ([Date.now()] and [Math.random().toString(36)]),
      the predicate [holds ls st] ("the storage parses to the document
      [st]") and the demo data the witnesses run on.
    - [Users], [Purchases], [Items], [Transactions], [RedeemCodes],
      [Tickets]: one file per group of methods of [DB], each method a
      [Definition] of the same name in a [Section] over any lawful storage
      and codec, with the guards and early returns of the code.
    - [Facade]: the object [DB] as a state machine: [Call] names every
      method with its arguments, [dispatch] runs one call, [runCalls] a
      sequence, [reachable] and [clockedRun] are the step relations of
      runs from a storage.
    - [JsonCodec]: the document's JSON form ([encode_state] and
      [decode_state], the string values of the enums, optional fields
      left out when [undefined]) and [json_codec], the [Codec] of the real
      program on strings; with [localStorage_storage] at [V := string] it
      is the browser's storage of JSON text.

    ** The theorems

    - Functional behaviour of every mutating method on every branch,
      errors included: [processPurchase] (success, insufficient credits,
      out of stock, not found, no write on failure), [updateItem],
      [deleteItem], [updateTransactionStatus], [redeem],
      [updateUserCredits], the ticket methods, [verifyUser].
    - The spec's stock property ([processPurchase_sequential_stock]): a
      SEQUENTIAL item with [N] units serves [N] purchases in list order,
      then fails; the add/delete property ([runItemOps_getItems]) as a
      refinement of an abstract specification ([survivors]); the exact
      number of successful redemptions of a code string
      ([redeem_exactly_unused]).
    - Invariants over every call ([Facade]): the purchase log only
      grows; credits stay non-negative under calls bringing no negative
      amount in; delivered counters match delivered units; tickets satisfy
      the spec's [lastUpdated] invariant under a monotone clock and
      callers that stamp no later than the clock ([clockedRun]).
    - The stored text: on [localStorage] of JSON text, [saveState(state)]
      then [getInitialState()] yields [state] and leaves the key holding
      [JSON.stringify(state)] ([document_text_roundtrip], from the
      supporting round trip [json_parse_stringify] of the printer and the
      parser); an unparsable stored blob makes every method but
      [verifyUser] throw [SyntaxError] and write nothing
      ([dispatch_unreadable]).
    - Supporting lemmas, used by the theorems above: the behaviour of
      [DB] depends only on the stored document
      ([runCalls_storage_independent], [fresh_run_json_refines]); every
      storage reachable from one holding a document holds one
      ([reachable_holds]); [updateItem]'s [findIndex] arithmetic equals a
      reference "replace the first match" definition
      ([updateItem_equiv]); the parser's fuel is always enough
      ([parse_value_fuel]); the purchase id [substring(7)] has the length
      of the random text minus 7 ([purchaseId_length]).
    - Deviations the code has from the spec, each proved for every
      document where it applies: approving a transaction twice credits
      twice ([updateTransactionStatus_approve_twice]); a buyer holding
      exactly [N] times the price of an [N]-unit stock gets
      ['Insufficient credits'], not ['Out of stock'], on the next call
      ([processPurchase_exact_credits]); a code string is redeemable once
      per unused record, so duplicates are redeemed more than once
      ([redeem_exactly_unused]); a message stamped after the clock breaks
      the ticket invariant ([addTicketMessage_future_message]); an
      [updateItem] that re-saves a sold unit as undelivered lets it be
      sold again ([updateItem_redelivers_unit]).

    ** Bounds, fuel and numbers

    The methods need no fuel: every loop of the code is a traversal of a
    finite array ([find], [findIndex], [filter]), modelled by structural
    recursion on the list.  [json_parse] runs its parser with fuel equal
    to the length of the text; [parse_value_fuel] proves that no larger
    fuel changes its answer, since each unit of fuel is matched by a
    consumed character.  JavaScript numbers are modelled as [Z]: every
    number the code handles is an integer amount, counter or timestamp,
    far below 2^53, so no rounding or overflow arises; the theorems about
    sums of credits are exact.

    ** Not modelled

    - JSON outside the values a document holds: numbers with a fraction
      or an exponent, [\u] escapes above code 255 (strings are byte
      strings) are rejected by the model's parser.  A text that is valid
      JSON but not a document of the data model is treated as unreadable
      (the method throws), where the code would go on with the malformed
      object; members outside the data model are dropped on reading.
    - The string values of the enums of [types.ts] (not in the
      repository) are taken to be their names.
    - The UI and email verification flow outside [src/db.ts]; [verifyUser]
      is modelled as the code has it (any non-empty token succeeds).
    - Floating-point behaviour of numbers (NaN, fractions), and the
      distribution of [Math.random()]: its base-36 text is an input of
      [Env], of which [processPurchase] keeps the characters from index 7.
    - Concurrent tabs writing the same key: every method is a single
      synchronous step here. *)

From stdpp Require Export base list strings.
From Stdlib Require Export ZArith Lia.

(** ** JavaScript notations

    Strict equality [===] on strings and on the string enums of
    [types.ts] is decided equality; [bool_decide] keeps it computable. *)

Declare Scope js_scope.
Delimit Scope js_scope with js.
Notation "a === b" := (bool_decide (a = b)) (at level 70, no associativity) : js_scope.
Notation "a !== b" := (negb (bool_decide (a = b))) (at level 70, no associativity) : js_scope.
#[global] Open Scope js_scope.

Create HintDb js.

(** ** Arrays as the code uses them *)

Section JsArray.
Context {A : Type}.
Implicit Types (p : A -> bool) (f : A -> A) (l : list A) (x y : A).

(** [arr.push(x)] *)
Definition push (x : A) (l : list A) : list A := l ++ [x].

(** [const x = arr.find(p); if (x) mutate(x)]: a JavaScript [find]
    returns a reference to the first element satisfying [p]; mutating
    it through that reference changes that element in place. *)
Fixpoint find_update p f l : list A :=
  match l with
  | [] => []
  | y :: l' => if p y then f y :: l' else y :: find_update p f l'
  end.

(** [arr.findIndex(p)]: the index of the first match, or [-1]. *)
Fixpoint findIndex_nat p l : option nat :=
  match l with
  | [] => None
  | y :: l' => if p y then Some 0 else S <$> findIndex_nat p l'
  end.

Definition findIndex p l : Z :=
  match findIndex_nat p l with
  | Some i => Z.of_nat i
  | None => (-1)%Z
  end.

(** *** [find] *)

Lemma find_None_Forall p l : find p l = None <-> Forall (fun y => p y = false) l.
Proof.
  induction l as [|y l IH]; simpl; [split; auto|].
  rewrite Forall_cons, <- IH. destruct (p y); naive_solver.
Qed.

Lemma find_split p l x :
  find p l = Some x ->
  exists l1 l2, l = l1 ++ x :: l2 /\ Forall (fun y => p y = false) l1 /\ p x = true.
Proof.
  induction l as [|y l IH]; simpl; [discriminate|].
  destruct (p y) eqn:E; intros H.
  - injection H as <-. exists [], l. auto.
  - destruct (IH H) as (l1 & l2 & -> & Hl1 & Hx).
    exists (y :: l1), l2. auto.
Qed.

Lemma find_app p l1 l2 :
  find p (l1 ++ l2) = match find p l1 with Some x => Some x | None => find p l2 end.
Proof. induction l1 as [|y l1 IH]; simpl; [done|]. by destruct (p y). Qed.

Lemma find_app_Forall p l1 l2 :
  Forall (fun y => p y = false) l1 -> find p (l1 ++ l2) = find p l2.
Proof. intros H. rewrite find_app. by apply find_None_Forall in H as ->. Qed.

Lemma find_push_None p l x :
  find p l = None -> find p (push x l) = if p x then Some x else None.
Proof. intros H. unfold push. rewrite find_app, H. simpl. by destruct (p x). Qed.

Lemma find_push_Some p l x y :
  find p l = Some y -> find p (push x l) = Some y.
Proof. intros H. unfold push. by rewrite find_app, H. Qed.

Lemma find_elem_of p l x : find p l = Some x -> x ∈ l.
Proof. intros H. apply list_elem_of_In. by eapply find_some. Qed.

Lemma find_true p l x : find p l = Some x -> p x = true.
Proof. intros H. by eapply find_some. Qed.

(** *** [filter] *)

Lemma filter_filter_andb (f g : A -> bool) l :
  List.filter f (List.filter g l) = List.filter (fun x => g x && f x) l.
Proof.
  induction l as [|y l IH]; simpl; [done|].
  destruct (g y); simpl; [destruct (f y); simpl; by rewrite IH|done].
Qed.

Lemma filter_Forall_false (p : A -> bool) l :
  Forall (fun y => p y = false) l -> List.filter p l = [].
Proof. induction 1 as [|y l Hy _ IH]; simpl; [done|]. by rewrite Hy. Qed.

(** [find] returns the first element [filter] keeps. *)
Lemma find_filter_cons p l x rest : List.filter p l = x :: rest -> find p l = Some x.
Proof.
  induction l as [|y l IH]; simpl; [discriminate|].
  destruct (p y); [congruence|exact IH].
Qed.

Lemma find_filter_nil p l : List.filter p l = [] -> find p l = None.
Proof.
  induction l as [|y l IH]; simpl; [done|]. destruct (p y); [discriminate|exact IH].
Qed.

(** *** [find_update]: in-place mutation through a found reference *)

Lemma find_update_None p f l : find p l = None -> find_update p f l = l.
Proof.
  induction l as [|y l IH]; simpl; [done|].
  destruct (p y); [discriminate|]. intros H. by rewrite IH.
Qed.

Lemma find_update_split p f l x :
  find p l = Some x ->
  exists l1 l2, l = l1 ++ x :: l2 /\ Forall (fun y => p y = false) l1 /\
    find_update p f l = l1 ++ f x :: l2.
Proof.
  induction l as [|y l IH]; simpl; [discriminate|].
  destruct (p y) eqn:E; intros H.
  - injection H as <-. exists [], l. auto.
  - destruct (IH H) as (l1 & l2 & -> & Hl1 & Hu).
    exists (y :: l1), l2. rewrite Hu. auto.
Qed.

Lemma length_find_update p f l : length (find_update p f l) = length l.
Proof. induction l as [|y l IH]; simpl; [done|]. destruct (p y); simpl; auto. Qed.

Lemma find_update_id p f l : (forall y, p y = true -> f y = y) -> find_update p f l = l.
Proof.
  intros Hf. induction l as [|y l IH]; simpl; [done|].
  destruct (p y) eqn:E; [by rewrite Hf|by rewrite IH].
Qed.

Lemma find_update_app_Forall p f l1 l2 :
  Forall (fun y => p y = false) l1 -> find_update p f (l1 ++ l2) = l1 ++ find_update p f l2.
Proof.
  induction 1 as [|y l1 Hy _ IH]; simpl; [done|]. by rewrite Hy, IH.
Qed.

Lemma find_update_push p f l x :
  find_update p f (push x l) =
    match find p l with Some _ => push x (find_update p f l)
                   | None => push (if p x then f x else x) l end.
Proof.
  unfold push. induction l as [|y l IH]; simpl; [by destruct (p x)|].
  destruct (p y); simpl; [done|]. rewrite IH. by destruct (find p l).
Qed.

(** The mutated element is found again when it still satisfies [p]. *)
Lemma find_find_update_same p f l x :
  find p l = Some x -> p (f x) = true -> find p (find_update p f l) = Some (f x).
Proof.
  intros Hx Hfx. destruct (find_update_split p f l x Hx) as (l1 & l2 & -> & Hl1 & ->).
  rewrite find_app_Forall by done. simpl. by rewrite Hfx.
Qed.

(** A search for another key sees through the mutation. *)
Lemma find_find_update_other p q f l :
  (forall x, p x = true -> q x = false /\ q (f x) = false) ->
  find q (find_update p f l) = find q l.
Proof.
  intros Hpq. induction l as [|y l IH]; simpl; [done|].
  destruct (p y) eqn:E; simpl.
  - destruct (Hpq y E) as [-> ->]. done.
  - by rewrite IH.
Qed.

(** Elements other than the mutated one are untouched. *)
Lemma elem_of_find_update p f l y :
  y ∈ find_update p f l -> y ∈ l \/ exists x, find p l = Some x /\ y = f x.
Proof.
  destruct (find p l) as [x|] eqn:Hx.
  - destruct (find_update_split p f l x Hx) as (l1 & l2 & -> & _ & ->).
    rewrite !elem_of_app, !elem_of_cons. naive_solver.
  - rewrite find_update_None by done. auto.
Qed.

Lemma Forall_find_update (P : A -> Prop) p f l :
  Forall P l -> (forall x, find p l = Some x -> P x -> P (f x)) ->
  Forall P (find_update p f l).
Proof.
  intros Hl Hf. apply Forall_forall. intros y Hy.
  apply elem_of_find_update in Hy as [Hy|(x & Hx & ->)].
  - by eapply Forall_forall in Hl.
  - apply Hf; [done|]. eapply Forall_forall; [exact Hl|]. by eapply find_elem_of.
Qed.

(** An element the search skips keeps its index and its value. *)
Lemma find_update_lookup_skip p f l i x :
  l !! i = Some x -> p x = false -> find_update p f l !! i = Some x.
Proof.
  revert i. induction l as [|y l IH]; intros [|i]; simpl; try discriminate.
  - intros [= ->] Hx. by rewrite Hx.
  - intros Hi Hx. destruct (p y); simpl; [done|]. by apply IH.
Qed.

(** *** [findIndex] followed by [arr[index] = v] *)

Lemma findIndex_nat_find p l :
  match findIndex_nat p l with
  | Some i => exists x, l !! i = Some x /\ find p l = Some x
  | None => find p l = None
  end.
Proof.
  induction l as [|y l IH]; simpl; [done|].
  destruct (p y); [eauto|].
  destruct (findIndex_nat p l) as [i|]; simpl; [|done].
  destruct IH as (x & ? & ?). eauto.
Qed.

Lemma findIndex_neg p l : findIndex p l = (-1)%Z <-> find p l = None.
Proof.
  unfold findIndex. pose proof (findIndex_nat_find p l) as H.
  destruct (findIndex_nat p l) as [i|].
  - destruct H as (x & _ & ->). split; [lia|discriminate].
  - tauto.
Qed.

Lemma findIndex_insert p l v :
  findIndex p l <> (-1)%Z ->
  <[Z.to_nat (findIndex p l) := v]> l = find_update p (fun _ => v) l.
Proof.
  unfold findIndex. revert l. fix IH 1. intros [|y l]; simpl; [done|].
  destruct (p y); [done|].
  destruct (findIndex_nat p l) as [i|] eqn:E; simpl; [|lia].
  intros _. rewrite Nat2Z.id. simpl. f_equal.
  specialize (IH l). rewrite E, Nat2Z.id in IH. apply IH. lia.
Qed.
End JsArray.

#[export] Hint Rewrite @find_update_None @find_app @length_find_update : js.
#[export] Hint Resolve find_elem_of find_true : js.

(** [a || b] on an optional string: [undefined] and [''] are falsy. *)
Definition js_or (o : option string) (d : string) : string :=
  match o with
  | Some s => if s === ""%string then d else s
  | None => d
  end.

(** Unfold a decided equality test in the goal or in a hypothesis. *)
Ltac js_decide :=
  repeat match goal with
  | H : context [bool_decide ?P] |- _ => destruct (bool_decide_reflect P); simplify_eq/=
  | |- context [bool_decide ?P] => destruct (bool_decide_reflect P); simplify_eq/=
  end.

(** Discharge a premise of a theorem at a concrete input: computed
    equalities, computed disequalities, arithmetic. *)
Ltac witness_premise :=
  first [ vm_compute; reflexivity | vm_compute; discriminate | lia | done ].
