(* ===== verification/Json.v ===== *)
(** * Json: the text format of the stored document

    [saveState] writes [JSON.stringify(state)] and [getInitialState] reads
    [JSON.parse(stored)] (db.ts lines 21 and 33).  These are platform
    functions (ECMA-262, sections 25.5.1 and 25.5.2), modelled here on the
    values a document is made of: [json] is a JSON value whose numbers are
    integers (every number of the data model is an integer amount, counter
    or timestamp) and whose strings are byte strings.
    - [json_stringify] follows SerializeJSONProperty: no whitespace,
      members in order, integers in decimal ([Number::toString]), strings
      quoted by QuoteJSONString (the short escapes for backspace, tab,
      line feed, form feed, carriage return, the double quote and the
      backslash, and [\u00XX] with lowercase hex for the other control
      characters).  It is written in
      continuation style: [emit v k] is the text of [v] followed by [k].
    - [json_parse] is a recursive-descent parser of the JSON grammar
      (whitespace, literals, strings with every escape, arrays, objects,
      integers without leading zeros); its recursion is bounded by a fuel
      argument, the length of the text, which is always enough
      ([parse_value_fuel]).  A text is accepted when one value followed by
      whitespace only is read.  Numbers with a fraction or an exponent, and
      [\u] escapes above code 255, are outside the modelled values and are
      rejected. *)

From Stdlib Require Import Ascii DecimalString DecimalN DecimalZ.
From S2P Require Import Prelude.

Inductive json :=
  | JNull
  | JBool (b : bool)
  | JNumber (z : Z)
  | JString (s : string)
  | JArray (l : list json)
  | JObject (l : list (string * json)).

(** ** Characters *)

Definition dquote : ascii := Ascii false true false false false true false false.
Definition backslash : ascii := "\"%char.

(** JSON whitespace: space, tab, line feed, carriage return. *)
Definition is_ws (c : ascii) : bool :=
  let n := nat_of_ascii c in (n =? 32) || (n =? 9) || (n =? 10) || (n =? 13).

Definition is_digit (c : ascii) : bool :=
  let n := nat_of_ascii c in (48 <=? n) && (n <=? 57).

Definition hexdigit (n : nat) : ascii := ascii_of_nat (if n <? 10 then 48 + n else 87 + n).

Definition hexval (c : ascii) : option nat :=
  let n := nat_of_ascii c in
  if (48 <=? n) && (n <=? 57) then Some (n - 48)
  else if (97 <=? n) && (n <=? 102) then Some (n - 87)
  else if (65 <=? n) && (n <=? 70) then Some (n - 55)
  else None.

(** ** [JSON.stringify] *)

(** QuoteJSONString, one code unit. *)
Definition escape_char (c : ascii) (k : string) : string :=
  if Ascii.eqb c dquote then String backslash (String dquote k)
  else if Ascii.eqb c backslash then String backslash (String backslash k)
  else match nat_of_ascii c with
  | 8 => String backslash (String "b" k)
  | 9 => String backslash (String "t" k)
  | 10 => String backslash (String "n" k)
  | 12 => String backslash (String "f" k)
  | 13 => String backslash (String "r" k)
  | n =>
      if n <? 32
      then String backslash (String "u" (String "0" (String "0"
             (String (hexdigit (n / 16)) (String (hexdigit (n mod 16)) k)))))
      else String c k
  end.

Fixpoint escape (s : string) (k : string) : string :=
  match s with
  | EmptyString => k
  | String c s' => escape_char c (escape s' k)
  end.

Definition quote (s : string) (k : string) : string := String dquote (escape s (String dquote k)).

(** [Number::toString] on an integer: its decimal digits, with [-] when
    negative. *)
Definition number_text (z : Z) : string := NilEmpty.string_of_int (Z.to_int z).

(** The elements of an array or the members of an object, separated by
    commas. *)
Fixpoint emit_list {A} (f : A -> string -> string) (l : list A) (k : string) : string :=
  match l with
  | [] => k
  | [x] => f x k
  | x :: l' => f x (String "," (emit_list f l' k))
  end.

Fixpoint emit (v : json) (k : string) : string :=
  match v with
  | JNull => String "n" (String "u" (String "l" (String "l" k)))
  | JBool true => String "t" (String "r" (String "u" (String "e" k)))
  | JBool false => String "f" (String "a" (String "l" (String "s" (String "e" k))))
  | JNumber z => number_text z +:+ k
  | JString s => quote s k
  | JArray l => String "[" (emit_list emit l (String "]" k))
  | JObject l =>
      String "{" (emit_list (fun kv k' => quote kv.1 (String ":" (emit kv.2 k'))) l (String "}" k))
  end.

Definition json_stringify (v : json) : string := emit v "".

(** ** [JSON.parse] *)

Fixpoint skip_ws (s : string) : string :=
  match s with
  | EmptyString => EmptyString
  | String c s' => if is_ws c then skip_ws s' else s
  end.

Fixpoint span_digits (s : string) : string * string :=
  match s with
  | EmptyString => (EmptyString, EmptyString)
  | String c s' =>
      if is_digit c then let '(d, r) := span_digits s' in (String c d, r) else (EmptyString, s)
  end.

(** The first character of [s] is [c]. *)
Definition head_is (c : ascii) (s : string) : bool :=
  match s with String c' _ => Ascii.eqb c' c | EmptyString => false end.

Definition tail (s : string) : string :=
  match s with String _ s' => s' | EmptyString => EmptyString end.

(** [0 | [1-9][0-9]*] *)
Definition parse_digits (s : string) : option (Decimal.uint * string) :=
  let '(ds, r) := span_digits s in
  match ds with
  | EmptyString => None
  | String c ds' =>
      if Ascii.eqb c "0" && negb (String.eqb ds' EmptyString) then None
      else match NilEmpty.uint_of_string ds with Some d => Some (d, r) | None => None end
  end.

Definition parse_number (s : string) : option (Z * string) :=
  if head_is "-" s then
    match parse_digits (tail s) with Some (d, r) => Some (Z.of_int (Decimal.Neg d), r) | None => None end
  else
    match parse_digits s with Some (d, r) => Some (Z.of_int (Decimal.Pos d), r) | None => None end.

Definition unescape (e : ascii) : option ascii :=
  if Ascii.eqb e dquote then Some dquote
  else if Ascii.eqb e backslash then Some backslash
  else match e with
  | "/" => Some "/"
  | "b" => Some (ascii_of_nat 8)
  | "t" => Some (ascii_of_nat 9)
  | "n" => Some (ascii_of_nat 10)
  | "f" => Some (ascii_of_nat 12)
  | "r" => Some (ascii_of_nat 13)
  | _ => None
  end%char.

Definition hex4 (h1 h2 h3 h4 : ascii) : option nat :=
  match hexval h1, hexval h2, hexval h3, hexval h4 with
  | Some a, Some b, Some c, Some d => Some (((a * 16 + b) * 16 + c) * 16 + d)
  | _, _, _, _ => None
  end.

Definition cons_char (c : ascii) (o : option (string * string)) : option (string * string) :=
  match o with Some (t, r) => Some (String c t, r) | None => None end.

(** The characters of a string literal after its opening quote, up to
    and without its closing quote. *)
Fixpoint parse_chars (s : string) : option (string * string) :=
  match s with
  | EmptyString => None
  | String c s' =>
      if Ascii.eqb c dquote then Some (EmptyString, s')
      else if Ascii.eqb c backslash then
        match s' with
        | EmptyString => None
        | String e r =>
            if Ascii.eqb e "u" then
              match r with
              | String h1 (String h2 (String h3 (String h4 r'))) =>
                  match hex4 h1 h2 h3 h4 with
                  | Some n => if n <? 256 then cons_char (ascii_of_nat n) (parse_chars r') else None
                  | None => None
                  end
              | _ => None
              end
            else match unescape e with Some c' => cons_char c' (parse_chars r) | None => None end
        end
      else if nat_of_ascii c <? 32 then None
      else cons_char c (parse_chars s')
  end.

(** The rest of [s] after the literal text [lit], if [s] starts with it. *)
Fixpoint expect (lit s : string) : option string :=
  match lit, s with
  | EmptyString, _ => Some s
  | String a lit', String b s' => if Ascii.eqb a b then expect lit' s' else None
  | String _ _, EmptyString => None
  end.

Fixpoint parse_value (n : nat) (s : string) {struct n} : option (json * string) :=
  match n with
  | O => None
  | S n =>
      match skip_ws s with
      | EmptyString => None
      | String c r =>
          if Ascii.eqb c "n" then
            match expect "ull" r with Some r' => Some (JNull, r') | None => None end
          else if Ascii.eqb c "t" then
            match expect "rue" r with Some r' => Some (JBool true, r') | None => None end
          else if Ascii.eqb c "f" then
            match expect "alse" r with Some r' => Some (JBool false, r') | None => None end
          else if Ascii.eqb c "[" then
            if head_is "]" (skip_ws r) then Some (JArray [], tail (skip_ws r))
            else parse_elements n r []
          else if Ascii.eqb c "{" then
            if head_is "}" (skip_ws r) then Some (JObject [], tail (skip_ws r))
            else parse_members n r []
          else if Ascii.eqb c dquote then
            match parse_chars r with Some (t, r') => Some (JString t, r') | None => None end
          else
            match parse_number (String c r) with Some (z, r') => Some (JNumber z, r') | None => None end
      end
  end
with parse_elements (n : nat) (s : string) (acc : list json) {struct n} : option (json * string) :=
  match n with
  | O => None
  | S n =>
      match parse_value n s with
      | Some (v, r) =>
          if head_is "," (skip_ws r) then parse_elements n (tail (skip_ws r)) (v :: acc)
          else if head_is "]" (skip_ws r) then Some (JArray (rev (v :: acc)), tail (skip_ws r))
          else None
      | None => None
      end
  end
with parse_members (n : nat) (s : string) (acc : list (string * json)) {struct n} : option (json * string) :=
  match n with
  | O => None
  | S n =>
      if head_is dquote (skip_ws s) then
        match parse_chars (tail (skip_ws s)) with
        | Some (key, r1) =>
            if head_is ":" (skip_ws r1) then
              match parse_value n (tail (skip_ws r1)) with
              | Some (v, r) =>
                  if head_is "," (skip_ws r) then parse_members n (tail (skip_ws r)) ((key, v) :: acc)
                  else if head_is "}" (skip_ws r) then
                    Some (JObject (rev ((key, v) :: acc)), tail (skip_ws r))
                  else None
              | None => None
              end
            else None
        | None => None
        end
      else None
  end.

Definition json_parse (s : string) : option json :=
  match parse_value (String.length s) s with
  | Some (v, r) => match skip_ws r with EmptyString => Some v | _ => None end
  | None => None
  end.

(** The fuel a value needs: one unit per nesting level and per element. *)
Fixpoint json_size (v : json) : nat :=
  match v with
  | JArray l => S (sum_list_with (fun x => S (json_size x)) l)
  | JObject l => S (sum_list_with (fun kv => S (json_size kv.2)) l)
  | _ => 1
  end.

(** [emit] on one member of an object. *)
Definition emit_member (kv : string * json) (k : string) : string :=
  quote kv.1 (String ":" (emit kv.2 k)).

(** A continuation that cannot extend a number: it does not start with a
    digit. *)
Definition stops (k : string) : bool :=
  match k with String c _ => negb (is_digit c) | EmptyString => true end.

(** Induction on values through the arrays and objects they contain. *)
Fixpoint json_ind' (P : json -> Prop) (fnull : P JNull) (fbool : forall b, P (JBool b))
    (fnum : forall z, P (JNumber z)) (fstr : forall s, P (JString s))
    (farr : forall l, Forall P l -> P (JArray l))
    (fobj : forall l, Forall (fun kv => P kv.2) l -> P (JObject l)) (v : json) {struct v} : P v :=
  match v with
  | JNull => fnull
  | JBool b => fbool b
  | JNumber z => fnum z
  | JString s => fstr s
  | JArray l =>
      farr l ((fix go (l : list json) : Forall P l :=
        match l with
        | [] => @List.Forall_nil _ P
        | x :: l' => @List.Forall_cons _ P x l' (json_ind' P fnull fbool fnum fstr farr fobj x) (go l')
        end) l)
  | JObject l =>
      fobj l ((fix go (l : list (string * json)) : Forall (fun kv => P kv.2) l :=
        match l with
        | [] => @List.Forall_nil _ (fun kv => P kv.2)
        | kv :: l' => @List.Forall_cons _ (fun kv => P kv.2) kv l'
                        (json_ind' P fnull fbool fnum fstr farr fobj kv.2) (go l')
        end) l)
  end.

(** What a successful parse says about the fuel: the value read consumed at
    least its size in characters, and any fuel covering its size reads it. *)
Definition exact_value (n : nat) : Prop :=
  forall s v r, parse_value n s = Some (v, r) ->
    json_size v + String.length r <= String.length s /\
    forall m, json_size v <= m -> parse_value m s = Some (v, r).

Definition exact_elements (n : nat) : Prop :=
  forall s acc v r, parse_elements n s acc = Some (v, r) ->
    exists l, v = JArray (rev acc ++ l) /\
      sum_list_with (fun x => S (json_size x)) l + String.length r <= String.length s /\
      forall m, sum_list_with (fun x => S (json_size x)) l <= m -> parse_elements m s acc = Some (v, r).

Definition exact_members (n : nat) : Prop :=
  forall s acc v r, parse_members n s acc = Some (v, r) ->
    exists l, v = JObject (rev acc ++ l) /\
      sum_list_with (fun kv => S (json_size kv.2)) l + String.length r <= String.length s /\
      forall m, sum_list_with (fun kv => S (json_size kv.2)) l <= m -> parse_members m s acc = Some (v, r).

(** ** Strings and digits *)

Lemma append_cons c s k : String c s +:+ k = String c (s +:+ k).
Proof. reflexivity. Qed.

Lemma append_empty k : EmptyString +:+ k = k.
Proof. reflexivity. Qed.

Lemma length_append s k : String.length (s +:+ k) = String.length s + String.length k.
Proof. induction s as [|c s IH]; [done|]. rewrite append_cons. simpl. by rewrite IH. Qed.

Lemma skip_ws_nonws c t : is_ws c = false -> skip_ws (String c t) = String c t.
Proof. intros H. simpl. by rewrite H. Qed.

Lemma span_digits_uint d k :
  stops k = true -> span_digits (NilEmpty.string_of_uint d +:+ k) = (NilEmpty.string_of_uint d, k).
Proof.
  intros Hk. induction d; cbn [NilEmpty.string_of_uint]; rewrite ?append_cons;
    try (simpl; rewrite IHd; reflexivity).
  rewrite append_empty. destruct k as [|c k]; [done|]. simpl in *. by destruct (is_digit c).
Qed.

(** The decimal digits of a positive number do not start with [0]. *)
Lemma pos_to_uint_head p d : Pos.to_uint p <> Decimal.D0 d.
Proof.
  intros E.
  assert (Hn : Decimal.unorm (Pos.to_uint p) = Pos.to_uint p).
  { pose proof (DecimalPos.Unsigned.to_of (Pos.to_uint p)) as H.
    rewrite DecimalPos.Unsigned.of_to in H. exact (eq_sym H). }
  rewrite E, DecimalFacts.unorm_D0 in Hn.
  destruct (Decimal.nzhead d) eqn:Hz;
    [rewrite (proj2 (DecimalFacts.unorm_0 d) Hz) in Hn; injection Hn as <-;
     by apply (DecimalPos.Unsigned.to_uint_nonzero p)
    |by apply (DecimalFacts.nzhead_nonzero d u)|..];
    rewrite DecimalFacts.unorm_nzhead in Hn by (rewrite Hz; discriminate); congruence.
Qed.

Lemma parse_digits_text d k :
  stops k = true -> d <> Decimal.Nil -> (forall d', d = Decimal.D0 d' -> d' = Decimal.Nil) ->
  parse_digits (NilEmpty.string_of_uint d +:+ k) = Some (d, k).
Proof.
  intros Hk Hnil H0. unfold parse_digits. rewrite span_digits_uint by done.
  pose proof (NilEmpty.usu d) as Hu.
  destruct d; try done; [by rewrite (H0 _ eq_refl)|..]; simpl in Hu |- *; by rewrite Hu.
Qed.

Lemma parse_number_uint u k :
  stops k = true -> u <> Decimal.Nil -> (forall d', u = Decimal.D0 d' -> d' = Decimal.Nil) ->
  parse_number (NilEmpty.string_of_uint u +:+ k) = Some (Z.of_int (Decimal.Pos u), k) /\
  parse_number (String "-" (NilEmpty.string_of_uint u) +:+ k) = Some (Z.of_int (Decimal.Neg u), k).
Proof.
  intros Hk Hnil H0. pose proof (parse_digits_text u k Hk Hnil H0) as Hd.
  rewrite append_cons. split; [|unfold parse_number; simpl head_is; simpl tail; cbv beta iota; by rewrite Hd].
  unfold parse_number. destruct u; [done|..]; cbn [NilEmpty.string_of_uint] in *;
    rewrite append_cons in *; simpl head_is; cbv beta iota; by rewrite Hd.
Qed.

(** [Number::toString] is read back by the number grammar. *)
Lemma parse_number_text z k : stops k = true -> parse_number (number_text z +:+ k) = Some (z, k).
Proof.
  intros Hk. unfold number_text. destruct z as [|p|p].
  - exact (proj1 (parse_number_uint (Decimal.D0 Decimal.Nil) k Hk ltac:(done) ltac:(by intros ? [= ->]))).
  - destruct (parse_number_uint (Pos.to_uint p) k Hk (DecimalPos.Unsigned.to_uint_nonnil p)
      (fun d' E => False_rect _ (pos_to_uint_head p d' E))) as [H _].
    rewrite <- (DecimalZ.of_to (Zpos p)) at 2. exact H.
  - destruct (parse_number_uint (Pos.to_uint p) k Hk (DecimalPos.Unsigned.to_uint_nonnil p)
      (fun d' E => False_rect _ (pos_to_uint_head p d' E))) as [_ H].
    rewrite <- (DecimalZ.of_to (Zneg p)) at 2. exact H.
Qed.

Lemma number_text_head z :
  exists c t, number_text z = String c t /\ (c = "-"%char \/ is_digit c = true).
Proof.
  unfold number_text. destruct z as [|p|p]; simpl;
    [eexists _, _; split; [reflexivity|right; reflexivity]| |
     eexists _, _; split; [reflexivity|left; reflexivity]].
  pose proof (DecimalPos.Unsigned.to_uint_nonnil p).
  destruct (Pos.to_uint p); [done|..]; eexists _, _; (split; [reflexivity|right; reflexivity]).
Qed.

(** A character that starts a number is none of the characters the
    parser dispatches on. *)
Lemma number_head_plain c :
  c = "-"%char \/ is_digit c = true ->
  is_ws c = false /\ Ascii.eqb c "n" = false /\ Ascii.eqb c "t" = false /\
  Ascii.eqb c "f" = false /\ Ascii.eqb c "[" = false /\ Ascii.eqb c "{" = false /\
  Ascii.eqb c dquote = false /\ Ascii.eqb c "]" = false.
Proof.
  intros [->|H]; [done|].
  destruct c as [[] [] [] [] [] [] [] []]; vm_compute in H |- *; first [discriminate | tauto].
Qed.

(** ** Escaping *)

Lemma parse_chars_escape_char c t : parse_chars (escape_char c t) = cons_char c (parse_chars t).
Proof. destruct c as [[] [] [] [] [] [] [] []]; reflexivity. Qed.

Lemma parse_chars_escape s k : parse_chars (escape s (String dquote k)) = Some (s, k).
Proof.
  induction s as [|c s IH]; [reflexivity|]. cbn [escape].
  by rewrite parse_chars_escape_char, IH.
Qed.

(** ** Reading back what [emit] writes *)

Lemma emit_array l k : emit (JArray l) k = String "[" (emit_list emit l (String "]" k)).
Proof. reflexivity. Qed.

Lemma emit_object l k : emit (JObject l) k = String "{" (emit_list emit_member l (String "}" k)).
Proof. reflexivity. Qed.

Lemma emit_list_cons2 {A} (f : A -> string -> string) x y l k :
  emit_list f (x :: y :: l) k = f x (String "," (emit_list f (y :: l) k)).
Proof. reflexivity. Qed.

Lemma parse_value_array n s :
  parse_value (S n) (String "[" s) =
    if head_is "]" (skip_ws s) then Some (JArray [], tail (skip_ws s)) else parse_elements n s [].
Proof. reflexivity. Qed.

Lemma parse_value_object n s :
  parse_value (S n) (String "{" s) =
    if head_is "}" (skip_ws s) then Some (JObject [], tail (skip_ws s)) else parse_members n s [].
Proof. reflexivity. Qed.

(** Every value's text starts with a character that is neither
    whitespace nor a closing bracket. *)
Lemma emit_head v k : exists c t, emit v k = String c t /\ is_ws c = false /\ Ascii.eqb c "]" = false.
Proof.
  destruct v as [| [] | z | s | l | l]; try by (eexists _, _; split; [reflexivity|]).
  destruct (number_text_head z) as (c & t & Ht & Hc).
  destruct (number_head_plain c Hc) as (Hw & _ & _ & _ & _ & _ & _ & Hb).
  exists c, (t +:+ k). by rewrite <- append_cons, <- Ht.
Qed.

Lemma parse_value_number n z k :
  stops k = true -> parse_value (S n) (number_text z +:+ k) = Some (JNumber z, k).
Proof.
  intros Hk. pose proof (parse_number_text z k Hk) as Hp.
  destruct (number_text_head z) as (c & t & Ht & Hc). rewrite Ht, append_cons in *.
  destruct (number_head_plain c Hc) as (Hw & Hn & Htt & Hf & Hb & Hbr & Hq & _).
  cbn [parse_value]. rewrite skip_ws_nonws by done. cbv beta iota.
  by rewrite Hn, Htt, Hf, Hb, Hbr, Hq, Hp.
Qed.

Section Elements.
(** The induction hypothesis of [parse_value_emit]: values are read back
    with any fuel below [n0] that covers their size. *)
Variable n0 : nat.
Hypothesis IH : forall m, m < n0 -> forall v k, json_size v <= m -> stops k = true ->
  parse_value m (emit v k) = Some (v, k).

Lemma parse_elements_emit l : forall m acc k,
  m < n0 -> l <> [] -> sum_list_with (fun x => S (json_size x)) l <= m ->
  parse_elements m (emit_list emit l (String "]" k)) acc = Some (JArray (rev acc ++ l), k).
Proof.
  induction l as [|x l IHl]; intros m acc k Hm Hne Hs; [done|].
  destruct m as [|m]; simpl in Hs; [lia|]. destruct l as [|y l].
  - cbn [emit_list parse_elements]. rewrite (IH m) by (done || lia). simpl. by rewrite <- ?app_assoc.
  - rewrite emit_list_cons2. cbn [parse_elements]. rewrite (IH m) by (done || lia).
    set (rest := emit_list emit (y :: l) _). simpl. subst rest.
    rewrite IHl by (done || lia).
    simpl. by rewrite <- ?app_assoc.
Qed.

Lemma parse_members_emit l : forall m acc k,
  m < n0 -> l <> [] -> sum_list_with (fun kv => S (json_size kv.2)) l <= m ->
  parse_members m (emit_list emit_member l (String "}" k)) acc = Some (JObject (rev acc ++ l), k).
Proof.
  induction l as [|[key v] l IHl]; intros m acc k Hm Hne Hs; [done|].
  destruct m as [|m]; simpl in Hs; [lia|]. destruct l as [|y l].
  - cbn [emit_list parse_members]. unfold emit_member, quote. simpl.
    rewrite parse_chars_escape. simpl. rewrite (IH m) by (done || lia). simpl. by rewrite <- ?app_assoc.
  - rewrite emit_list_cons2. cbn [parse_members].
    set (rest := emit_list emit_member (y :: l) _). unfold emit_member, quote. simpl.
    rewrite parse_chars_escape. simpl. rewrite (IH m) by (done || lia). simpl. subst rest.
    rewrite IHl by (done || lia). simpl. by rewrite <- ?app_assoc.
Qed.
End Elements.

(** The text of a non-empty list starts as the text of its first element. *)
Lemma emit_list_head {A} (f : A -> string -> string) l k :
  (forall x k', exists c t, f x k' = String c t /\ is_ws c = false /\ Ascii.eqb c "]" = false) ->
  l <> [] -> exists c t, emit_list f l k = String c t /\ is_ws c = false /\ Ascii.eqb c "]" = false.
Proof. intros Hf Hl. destruct l as [|x [|y l]]; [done|apply Hf|rewrite emit_list_cons2; apply Hf]. Qed.

Lemma json_size_pos v : 1 <= json_size v.
Proof. destruct v; simpl; lia. Qed.

(** Any value followed by a continuation that cannot extend it is read
    back by [parse_value], given fuel for its size. *)
Lemma parse_value_emit n : forall v k, json_size v <= n -> stops k = true ->
  parse_value n (emit v k) = Some (v, k).
Proof.
  induction n as [n IHn] using lt_wf_ind. intros v k Hs Hk.
  destruct n as [|n]; [pose proof (json_size_pos v); lia|].
  destruct v as [| [] | z | s | l | l]; [reflexivity|reflexivity|reflexivity|..].
  - exact (parse_value_number n z k Hk).
  - unfold emit, quote. simpl. by rewrite parse_chars_escape.
  - destruct l as [|x l]; [reflexivity|]. rewrite emit_array, parse_value_array.
    destruct (emit_list_head emit (x :: l) (String "]" k) emit_head) as (c & t & Ht & Hw & Hb);
      [done|].
    rewrite Ht, skip_ws_nonws by done. simpl head_is. rewrite Hb, <- Ht.
    simpl in Hs. rewrite (parse_elements_emit (S n)); [done|exact IHn|lia|done|simpl; lia].
  - destruct l as [|[key v] l]; [reflexivity|]. rewrite emit_object, parse_value_object.
    assert (exists t, emit_list emit_member ((key, v) :: l) (String "}" k) = String dquote t)
      as [t Ht] by (destruct l; eexists; reflexivity).
    rewrite Ht. simpl head_is. rewrite <- Ht.
    simpl in Hs. rewrite (parse_members_emit (S n)); [done|exact IHn|lia|done|simpl; lia].
Qed.

(** ** Sizes *)

Lemma length_escape_char c k : S (String.length k) <= String.length (escape_char c k).
Proof. destruct c as [[] [] [] [] [] [] [] []]; simpl; lia. Qed.

Lemma length_escape s k : String.length k <= String.length (escape s k).
Proof. induction s as [|c s IH]; [done|]. cbn [escape]. pose proof (length_escape_char c (escape s k)). lia. Qed.

Lemma length_emit_list {A} (f : A -> string -> string) (g : A -> nat) l k :
  (forall x k', In x l -> g x + String.length k' <= String.length (f x k')) ->
  sum_list_with (fun x => S (g x)) l + String.length k <= S (String.length (emit_list f l k)).
Proof.
  induction l as [|x l IH]; intros H; [simpl; lia|]. destruct l as [|y l].
  - pose proof (H x k (or_introl eq_refl)). simpl. lia.
  - rewrite emit_list_cons2. pose proof (H x (String "," (emit_list f (y :: l) k)) (or_introl eq_refl)).
    pose proof (IH (fun x' k' Hin => H x' k' (or_intror Hin))). simpl in *. lia.
Qed.

Lemma json_size_emit v k : json_size v + String.length k <= String.length (emit v k).
Proof.
  revert k. induction v as [| b | z | s | l IH | l IH] using json_ind'; intros k.
  - simpl. lia.
  - destruct b; simpl; lia.
  - destruct (number_text_head z) as (c & t & Ht & _). simpl. rewrite length_append, Ht. simpl. lia.
  - simpl. pose proof (length_escape s (String dquote k)). simpl in *. lia.
  - rewrite emit_array. rewrite List.Forall_forall in IH.
    pose proof (length_emit_list emit json_size l (String "]" k) (fun x k' Hin => IH x Hin k')).
    simpl in *. lia.
  - rewrite emit_object. rewrite List.Forall_forall in IH.
    assert (forall kv k', In kv l ->
      json_size kv.2 + String.length k' <= String.length (emit_member kv k')) as H.
    { intros [key v] k' Hin. specialize (IH _ Hin k'). unfold emit_member, quote. simpl.
      pose proof (length_escape key (String dquote (String ":" (emit v k')))). simpl in *. lia. }
    pose proof (length_emit_list emit_member (fun kv => json_size kv.2) l (String "}" k) H).
    simpl in *. lia.
Qed.

(** ** Fuel *)

Lemma length_skip_ws s : String.length (skip_ws s) <= String.length s.
Proof. induction s as [|c s IH]; simpl; [lia|]. destruct (is_ws c); simpl; lia. Qed.

Lemma length_tail s : String.length (tail s) <= String.length s.
Proof. destruct s; simpl; lia. Qed.

Lemma head_is_tail c s : head_is c s = true -> S (String.length (tail s)) = String.length s.
Proof. by destruct s. Qed.

Lemma expect_length lit s r : expect lit s = Some r -> String.length r + String.length lit = String.length s.
Proof.
  revert s. induction lit as [|a lit IH]; intros s H; [injection H as <-; simpl; lia|].
  destruct s as [|b s]; [discriminate|]. simpl in H. destruct (Ascii.eqb a b); [|discriminate].
  apply IH in H. simpl. lia.
Qed.

Lemma span_digits_length s :
  String.length (span_digits s).1 + String.length (span_digits s).2 = String.length s.
Proof.
  induction s as [|c s IH]; [done|]. simpl. destruct (is_digit c); [|done].
  destruct (span_digits s) as [d r]. simpl in *. lia.
Qed.

Lemma parse_digits_length s d r : parse_digits s = Some (d, r) -> String.length r < String.length s.
Proof.
  unfold parse_digits. pose proof (span_digits_length s) as Hl.
  destruct (span_digits s) as [ds r']. simpl in Hl. destruct ds as [|c ds']; [discriminate|].
  destruct (_ && _); [discriminate|]. destruct (NilEmpty.uint_of_string _); [|discriminate].
  intros [= _ <-]. simpl in Hl. lia.
Qed.

Lemma parse_number_length s z r : parse_number s = Some (z, r) -> String.length r < String.length s.
Proof.
  unfold parse_number. pose proof (length_tail s). destruct (head_is "-" s) eqn:Eh.
  - destruct (parse_digits (tail s)) as [[d r']|] eqn:E; [|discriminate].
    intros [= _ <-]. apply parse_digits_length in E. lia.
  - destruct (parse_digits s) as [[d r']|] eqn:E; [|discriminate].
    intros [= _ <-]. by apply parse_digits_length in E.
Qed.

Lemma parse_chars_length s : forall x r, parse_chars s = Some (x, r) -> String.length r < String.length s.
Proof.
  induction s as [s IH] using (induction_ltof1 _ String.length). intros x r H.
  destruct s as [|c s']; [discriminate|]. cbn [parse_chars] in H.
  assert (Hc : forall c' t, cons_char c' (parse_chars t) = Some (x, r) ->
    String.length t < String.length (String c s') -> String.length r < String.length (String c s')).
  { intros c' t Hcc Ht. destruct (parse_chars t) as [[x' r']|] eqn:Et; [|discriminate].
    injection Hcc as _ <-. apply IH in Et; [lia|exact Ht]. }
  destruct (Ascii.eqb c dquote); [injection H as _ <-; simpl; lia|].
  destruct (Ascii.eqb c backslash).
  - destruct s' as [|e r0]; [discriminate|]. destruct (Ascii.eqb e "u").
    + destruct r0 as [|h1 [|h2 [|h3 [|h4 r']]]]; try discriminate.
      destruct (hex4 _ _ _ _) as [n|]; [|discriminate]. destruct (n <? 256); [|discriminate].
      apply (Hc _ _ H). simpl. lia.
    + destruct (unescape e); [|discriminate]. apply (Hc _ _ H). simpl. lia.
  - destruct (nat_of_ascii c <? 32); [discriminate|]. apply (Hc _ _ H). simpl. lia.
Qed.

Lemma exact_elements_step n : exact_value n -> exact_elements n -> exact_elements (S n).
Proof.
  intros EV EE s acc v r H. cbn [parse_elements] in H.
  destruct (parse_value n s) as [[v1 r1]|] eqn:Ev; [|discriminate].
  destruct (EV _ _ _ Ev) as [Hc1 Hx1]. pose proof (length_skip_ws r1).
  destruct (head_is "," (skip_ws r1)) eqn:Ec.
  - destruct (EE _ _ _ _ H) as (l & -> & Hc & Hx). exists (v1 :: l).
    split; [simpl; by rewrite <- app_assoc|]. pose proof (head_is_tail _ _ Ec).
    split; [simpl; lia|]. intros [|m] Hm; simpl in Hm; [lia|]. cbn [parse_elements].
    rewrite (Hx1 m) by lia. cbv beta iota. rewrite Ec. apply Hx. lia.
  - destruct (head_is "]" (skip_ws r1)) eqn:Eb; [|discriminate]. injection H as <- <-.
    exists [v1]. split; [done|]. pose proof (head_is_tail _ _ Eb).
    split; [simpl; lia|]. intros [|m] Hm; simpl in Hm; [lia|]. cbn [parse_elements].
    rewrite (Hx1 m) by lia. cbv beta iota. by rewrite Ec, Eb.
Qed.

Lemma exact_members_step n : exact_value n -> exact_members n -> exact_members (S n).
Proof.
  intros EV EM s acc v r H. cbn [parse_members] in H.
  destruct (head_is dquote (skip_ws s)) eqn:Eq; [|discriminate].
  destruct (parse_chars (tail (skip_ws s))) as [[key r1]|] eqn:Ek; [|discriminate].
  destruct (head_is ":" (skip_ws r1)) eqn:Ecol; [|discriminate].
  destruct (parse_value n (tail (skip_ws r1))) as [[v1 r2]|] eqn:Ev; [|discriminate].
  destruct (EV _ _ _ Ev) as [Hc1 Hx1].
  pose proof (head_is_tail _ _ Eq). pose proof (head_is_tail _ _ Ecol).
  pose proof (parse_chars_length _ _ _ Ek). pose proof (length_skip_ws s).
  pose proof (length_skip_ws r1). pose proof (length_skip_ws r2).
  destruct (head_is "," (skip_ws r2)) eqn:Ec.
  - destruct (EM _ _ _ _ H) as (l & -> & Hc & Hx). exists ((key, v1) :: l).
    split; [simpl; by rewrite <- app_assoc|]. pose proof (head_is_tail _ _ Ec).
    split; [simpl; lia|]. intros [|m] Hm; simpl in Hm; [lia|]. cbn [parse_members].
    rewrite Eq, Ek, Ecol, (Hx1 m) by lia. cbv beta iota. rewrite Ec. apply Hx. lia.
  - destruct (head_is "}" (skip_ws r2)) eqn:Eb; [|discriminate]. injection H as <- <-.
    exists [(key, v1)]. split; [done|]. pose proof (head_is_tail _ _ Eb).
    split; [simpl; lia|]. intros [|m] Hm; simpl in Hm; [lia|]. cbn [parse_members].
    rewrite Eq, Ek, Ecol, (Hx1 m) by lia. cbv beta iota. by rewrite Ec, Eb.
Qed.

(** Re-running [parse_value] on the same text with other fuel [S m]. *)
Ltac rerun_value Ew := intros [|?m] ?Hm; [simpl in *; lia|]; cbn [parse_value]; rewrite Ew; cbv beta iota.

Lemma exact_value_step n : exact_elements n -> exact_members n -> exact_value (S n).
Proof.
  intros EE EM s v r H. cbn [parse_value] in H. pose proof (length_skip_ws s) as Hl.
  destruct (skip_ws s) as [|c t] eqn:Ew; [discriminate|]. simpl in Hl. cbv beta iota in H.
  destruct (Ascii.eqb c "n") eqn:E1.
  { destruct (expect "ull" t) as [r'|] eqn:Ee; [|discriminate]. injection H as <- <-.
    pose proof (expect_length _ _ _ Ee). split; [simpl in *; lia|].
    rerun_value Ew. rewrite E1. cbv beta iota. by rewrite Ee. }
  destruct (Ascii.eqb c "t") eqn:E2.
  { destruct (expect "rue" t) as [r'|] eqn:Ee; [|discriminate]. injection H as <- <-.
    pose proof (expect_length _ _ _ Ee). split; [simpl in *; lia|].
    rerun_value Ew. rewrite E1, E2. cbv beta iota. by rewrite Ee. }
  destruct (Ascii.eqb c "f") eqn:E3.
  { destruct (expect "alse" t) as [r'|] eqn:Ee; [|discriminate]. injection H as <- <-.
    pose proof (expect_length _ _ _ Ee). split; [simpl in *; lia|].
    rerun_value Ew. rewrite E1, E2, E3. cbv beta iota. by rewrite Ee. }
  pose proof (length_skip_ws t).
  destruct (Ascii.eqb c "[") eqn:E4.
  { destruct (head_is "]" (skip_ws t)) eqn:Eh.
    - injection H as <- <-. pose proof (head_is_tail _ _ Eh). split; [simpl; lia|].
      rerun_value Ew. rewrite E1, E2, E3, E4. cbv beta iota. by rewrite Eh.
    - destruct (EE _ _ _ _ H) as (l & -> & Hc & Hx). split; [simpl; lia|].
      rerun_value Ew. rewrite E1, E2, E3, E4. cbv beta iota. rewrite Eh. apply Hx. simpl in *. lia. }
  destruct (Ascii.eqb c "{") eqn:E5.
  { destruct (head_is "}" (skip_ws t)) eqn:Eh.
    - injection H as <- <-. pose proof (head_is_tail _ _ Eh). split; [simpl; lia|].
      rerun_value Ew. rewrite E1, E2, E3, E4, E5. cbv beta iota. by rewrite Eh.
    - destruct (EM _ _ _ _ H) as (l & -> & Hc & Hx). split; [simpl; lia|].
      rerun_value Ew. rewrite E1, E2, E3, E4, E5. cbv beta iota. rewrite Eh. apply Hx. simpl in *. lia. }
  destruct (Ascii.eqb c dquote) eqn:E6.
  { destruct (parse_chars t) as [[x r']|] eqn:Ek; [|discriminate]. injection H as <- <-.
    pose proof (parse_chars_length _ _ _ Ek). split; [simpl; lia|].
    rerun_value Ew. rewrite E1, E2, E3, E4, E5, E6. cbv beta iota. by rewrite Ek. }
  destruct (parse_number (String c t)) as [[z r']|] eqn:En; [|discriminate]. injection H as <- <-.
  pose proof (parse_number_length _ _ _ En). simpl in *. split; [lia|].
  rerun_value Ew. rewrite E1, E2, E3, E4, E5, E6. cbv beta iota. by rewrite En.
Qed.

Lemma exact_all n : exact_value n /\ exact_elements n /\ exact_members n.
Proof.
  induction n as [|n (EV & EE & EM)].
  - split; [|split]; intros ?; simpl; discriminate.
  - split; [by apply exact_value_step|]. split; [by apply exact_elements_step|by apply exact_members_step].
Qed.

(** [JSON.parse] reads back the text [JSON.stringify] writes. *)
Lemma json_roundtrip v : json_parse (json_stringify v) = Some v.
Proof.
  unfold json_parse, json_stringify. pose proof (json_size_emit v "") as Hs. simpl in Hs.
  by rewrite parse_value_emit by (done || lia).
Qed.

(** Any fuel from the text's length on gives the same answer. *)
Lemma parse_value_fuel_step s n :
  String.length s <= n -> parse_value n s = parse_value (String.length s) s.
Proof.
  intros Hn.
  destruct (parse_value n s) as [[v r]|] eqn:E1; destruct (parse_value (String.length s) s) as [[v' r']|] eqn:E2.
  - destruct (proj1 (exact_all n) _ _ _ E1) as [Hc Hx]. rewrite Hx in E2 by lia. congruence.
  - destruct (proj1 (exact_all n) _ _ _ E1) as [Hc Hx]. rewrite Hx in E2 by lia. discriminate.
  - destruct (proj1 (exact_all _) _ _ _ E2) as [Hc Hx]. rewrite Hx in E1 by lia. discriminate.
  - done.
Qed.

(** [JSON.parse(JSON.stringify(v))] is [v], for every value: strings
    with any character (escaped and unescaped back), integers of any sign,
    nested arrays and objects with their members in order. *)
Theorem json_parse_stringify v : json_parse (json_stringify v) = Some v.
Proof. apply json_roundtrip. Qed.

(** the fuel of [json_parse] (the length of the text) is always
    enough: with any larger fuel [parse_value] gives the same answer, so
    [json_parse] is the parser of the JSON grammar without a bound on its
    recursion. *)
Theorem parse_value_fuel s n :
  String.length s <= n -> parse_value n s = parse_value (String.length s) s.
Proof. apply parse_value_fuel_step. Qed.

Lemma parse_value_fuel_witness :
  parse_value 100 "[1,[2]]" = parse_value (String.length "[1,[2]]") "[1,[2]]" /\
  json_parse "[1,[2]]" = Some (JArray [JNumber 1; JArray [JNumber 2]]).
Proof. split; [apply parse_value_fuel; vm_compute; lia|vm_compute; reflexivity]. Defined.
