(* ===== verification/Types.v ===== *)
(** * Types: the data model of [types.ts] and the document [DBState]

    [src/db.ts] imports its record types from [./types], which is not part
    of the repository: the records and enums below follow the spec's data
    model (section 3) and the fields [src/db.ts] reads and writes.  Each
    record lives in a module of its own so that its fields keep the
    TypeScript names ([User.id], [Item.price], ...).  Numbers are modelled
    as [Z]: every number the code manipulates is an integer amount,
    counter or millisecond timestamp.  [DBState] is the interface of
    [src/db.ts] lines 10-17. *)

From S2P Require Import Prelude.

Module UserRole.
Inductive UserRole := USER | ADMIN.
End UserRole.
Abbreviation UserRole := UserRole.UserRole.

Module ItemType.
Inductive ItemType := INSTANT | SEQUENTIAL.
End ItemType.
Abbreviation ItemType := ItemType.ItemType.

Module TransactionStatus.
Inductive TransactionStatus := PENDING | APPROVED | REJECTED.
End TransactionStatus.
Abbreviation TransactionStatus := TransactionStatus.TransactionStatus.

Module TicketStatus.
Inductive TicketStatus := OPEN | CLOSED.
End TicketStatus.
Abbreviation TicketStatus := TicketStatus.TicketStatus.

Module User.
Record User := mkUser { id : string; role : UserRole; credits : Z }.
End User.
Abbreviation User := User.User.

Module SequentialItem.
Record SequentialItem := mkSequentialItem { content : string; isDelivered : bool }.
End SequentialItem.
Abbreviation SequentialItem := SequentialItem.SequentialItem.

Module Item.
Record Item := mkItem {
  id : string;
  name : string;
  price : Z;
  type : ItemType;
  content : option string;                          (** [content?: string] *)
  sequentialItems : option (list SequentialItem);   (** [sequentialItems?: SequentialItem[]] *)
  deliveredCount : Z
}.
End Item.
Abbreviation Item := Item.Item.

Module Purchase.
Record Purchase := mkPurchase {
  id : string; userId : string; itemId : string; itemName : string;
  contentDelivered : string; timestamp : Z; price : Z
}.
End Purchase.
Abbreviation Purchase := Purchase.Purchase.

Module Transaction.
Record Transaction := mkTransaction {
  id : string; userId : string; amount : Z; status : TransactionStatus
}.
End Transaction.
Abbreviation Transaction := Transaction.Transaction.

Module RedeemCode.
Record RedeemCode := mkRedeemCode { code : string; amount : Z; isUsed : bool }.
End RedeemCode.
Abbreviation RedeemCode := RedeemCode.RedeemCode.

Module TicketMessage.
Record TicketMessage := mkTicketMessage { sender : string; content : string; timestamp : Z }.
End TicketMessage.
Abbreviation TicketMessage := TicketMessage.TicketMessage.

Module Ticket.
Record Ticket := mkTicket {
  id : string; messages : list TicketMessage; status : TicketStatus; lastUpdated : Z
}.
End Ticket.
Abbreviation Ticket := Ticket.Ticket.

(** [interface DBState] (db.ts 10-17). *)
Record DBState := mkDBState {
  users : list User;
  items : list Item;
  purchases : list Purchase;
  transactions : list Transaction;
  redeemCodes : list RedeemCode;
  tickets : list Ticket
}.

(** The document [getInitialState] builds on first run (db.ts 22-29). *)
Definition initialState : DBState := mkDBState [] [] [] [] [] [].

(** Field updates of the in-memory document ([state.users = ...] and the
    in-place mutations of its arrays). *)
Definition set_users (f : list User -> list User) (s : DBState) : DBState :=
  mkDBState (f s.(users)) s.(items) s.(purchases) s.(transactions) s.(redeemCodes) s.(tickets).
Definition set_items (f : list Item -> list Item) (s : DBState) : DBState :=
  mkDBState s.(users) (f s.(items)) s.(purchases) s.(transactions) s.(redeemCodes) s.(tickets).
Definition set_purchases (f : list Purchase -> list Purchase) (s : DBState) : DBState :=
  mkDBState s.(users) s.(items) (f s.(purchases)) s.(transactions) s.(redeemCodes) s.(tickets).
Definition set_transactions (f : list Transaction -> list Transaction) (s : DBState) : DBState :=
  mkDBState s.(users) s.(items) s.(purchases) (f s.(transactions)) s.(redeemCodes) s.(tickets).
Definition set_redeemCodes (f : list RedeemCode -> list RedeemCode) (s : DBState) : DBState :=
  mkDBState s.(users) s.(items) s.(purchases) s.(transactions) (f s.(redeemCodes)) s.(tickets).
Definition set_tickets (f : list Ticket -> list Ticket) (s : DBState) : DBState :=
  mkDBState s.(users) s.(items) s.(purchases) s.(transactions) s.(redeemCodes) (f s.(tickets)).

(** ** Decidable equality of every record and enum *)

#[export] Instance UserRole_eq_dec : EqDecision UserRole.
Proof. solve_decision. Defined.
#[export] Instance ItemType_eq_dec : EqDecision ItemType.
Proof. solve_decision. Defined.
#[export] Instance TransactionStatus_eq_dec : EqDecision TransactionStatus.
Proof. solve_decision. Defined.
#[export] Instance TicketStatus_eq_dec : EqDecision TicketStatus.
Proof. solve_decision. Defined.
#[export] Instance User_eq_dec : EqDecision User.
Proof. solve_decision. Defined.
#[export] Instance SequentialItem_eq_dec : EqDecision SequentialItem.
Proof. solve_decision. Defined.
#[export] Instance Item_eq_dec : EqDecision Item.
Proof. solve_decision. Defined.
#[export] Instance Purchase_eq_dec : EqDecision Purchase.
Proof. solve_decision. Defined.
#[export] Instance Transaction_eq_dec : EqDecision Transaction.
Proof. solve_decision. Defined.
#[export] Instance RedeemCode_eq_dec : EqDecision RedeemCode.
Proof. solve_decision. Defined.
#[export] Instance TicketMessage_eq_dec : EqDecision TicketMessage.
Proof. solve_decision. Defined.
#[export] Instance Ticket_eq_dec : EqDecision Ticket.
Proof. solve_decision. Defined.
#[export] Instance DBState_eq_dec : EqDecision DBState.
Proof. solve_decision. Defined.
