(* ===== verification/Storage.v ===== *)
(** * Storage: the backing medium and the document codec

    [src/db.ts] reaches persistent state only through
    [localStorage.getItem(STORAGE_KEY)], [localStorage.setItem(STORAGE_KEY, _)],
    [JSON.parse] and [JSON.stringify] (lines 20-21 and 33).  These are
    platform services, not code of the repository; they are stated here
    as two interfaces with their laws, so that the store's theorems are
    proved against the interfaces and hold for every implementation:
    - [Storage LS V]: a key-value medium [LS] with values [V]
      ([getItem]/[setItem]); its laws say a read returns the last write;
    - [Codec V]: [stringify] and [parse] between the document and [V],
      and [truthy], the test [if (stored)] applies to a stored value;
      its laws say a written document parses back to itself and is truthy.
    Instances: [localStorage] as a [gmap string V], and the document codec
    [V := DBState], where serialization is the identity (an in-memory
    store).  The codec of the real program, JSON text, is [json_codec] in
    [JsonCodec]. *)

From stdpp Require Import gmap.
From S2P Require Import Prelude Types.

Class Storage (LS V : Type) := {
  getItem : LS -> string -> option V;
  setItem : LS -> string -> V -> LS
}.

Class StorageLaws (LS V : Type) `{!Storage LS V} := {
  getItem_setItem_eq ls k v : getItem (setItem ls k v) k = Some v;
  getItem_setItem_ne ls k k' v : k <> k' -> getItem (setItem ls k v) k' = getItem ls k'
}.

Class Codec (V : Type) := {
  stringify : DBState -> V;
  parse : V -> option DBState;
  truthy : V -> bool
}.

Class CodecLaws (V : Type) `{!Codec V} := {
  parse_stringify s : parse (stringify s) = Some s;
  truthy_stringify s : truthy (stringify s) = true
}.

(** [window.localStorage]: a finite map from keys to stored values. *)
#[export] Instance localStorage_storage {V} : Storage (gmap string V) V := {|
  getItem ls k := ls !! k;
  setItem ls k v := <[k := v]> ls
|}.

#[export] Instance localStorage_laws {V} : StorageLaws (gmap string V) V.
Proof.
  split; intros; simpl.
  - apply lookup_insert_eq.
  - by apply lookup_insert_ne.
Qed.

(** The document kept as it is: the storage medium of the spec's design
    note (an in-memory test double of the backing store). *)
#[export] Instance document_codec : Codec DBState := {|
  stringify s := s;
  parse s := Some s;
  truthy _ := true
|}.

#[export] Instance document_codec_laws : CodecLaws DBState.
Proof. by split. Qed.
