(* ===== verification/StateStore.v ===== *)
(** * StateStore: the load / mutate / save discipline of [src/db.ts]

    Every method of [DB] is a computation in the monad [DB LS]: it may
    read and write the storage [LS] and may throw ([JSON.parse] throws a
    [SyntaxError] on a malformed blob, and nothing in [src/db.ts] catches
    it).  [getInitialState] (lines 19-30) and [saveState] (lines 32-34) are
    its only contacts with storage.  [Env] carries the two ambient inputs
    the code reads: [Date.now()] and the base-36 rendering of
    [Math.random()]. *)

From stdpp Require Import gmap.
From S2P Require Import Prelude Types Storage.

Inductive JsError := SyntaxError.

(** State and exception: a thrown error keeps the storage as it was when
    the error was thrown. *)
Definition DB (LS A : Type) : Type := LS -> (JsError + A) * LS.

#[export] Instance DB_ret {LS} : MRet (DB LS) := fun A a ls => (inr a, ls).
#[export] Instance DB_bind {LS} : MBind (DB LS) := fun A B k m ls =>
  match m ls with
  | (inl e, ls') => (inl e, ls')
  | (inr a, ls') => k a ls'
  end.

(** The ambient inputs: [Date.now()] and [Math.random().toString(36)]. *)
Record Env := mkEnv { now : Z; random36 : string }.

Definition STORAGE_KEY : string := "ebon_shop_db".

(** ** Concrete documents for the witnesses *)

Definition demoUser : User := User.mkUser "U" UserRole.USER 100.
Definition demoInstant : Item :=
  Item.mkItem "I" "Gift card" 30 ItemType.INSTANT (Some "CODE123") None 0.
Definition demoSequential : Item :=
  Item.mkItem "S" "Game keys" 10 ItemType.SEQUENTIAL None
    (Some [SequentialItem.mkSequentialItem "K1" false; SequentialItem.mkSequentialItem "K2" false]) 0.
(** A user who cannot afford [demoInstant]. *)
Definition demoPoorUser : User := User.mkUser "P" UserRole.USER 5.
(** A SEQUENTIAL item with no stock array at all. *)
Definition demoSoldOut : Item := Item.mkItem "E" "Sold out" 1 ItemType.SEQUENTIAL None None 0.
Definition demoState : DBState :=
  mkDBState [demoUser; demoPoorUser] [demoInstant; demoSequential; demoSoldOut] [] [] [] [].
Definition demoEnv : Env := mkEnv 1700000000000 "0.4fzyo82mvyr".
Definition demoStorage : gmap string DBState := <[STORAGE_KEY := demoState]> ∅.
(** A buyer with exactly the price of the whole stock. *)
Definition demoStorageExact : gmap string DBState :=
  <[STORAGE_KEY := mkDBState [User.mkUser "U" UserRole.USER 20] [demoSequential] [] [] [] []]> ∅.

Section StateStore.
Context `{!Storage LS V} `{!Codec V}.

(** [getInitialState]: [if (stored) return JSON.parse(stored)], else the
    empty document, which is not written back. *)
Definition getInitialState : DB LS DBState := fun ls =>
  match getItem ls STORAGE_KEY with
  | Some stored =>
      if truthy stored then
        match parse stored with
        | Some state => (inr state, ls)
        | None => (inl SyntaxError, ls)
        end
      else (inr initialState, ls)
  | None => (inr initialState, ls)
  end.

(** The storage after [localStorage.setItem(STORAGE_KEY, JSON.stringify(state))]. *)
Definition saved (ls : LS) (state : DBState) : LS :=
  setItem ls STORAGE_KEY (stringify state).

Definition saveState (state : DBState) : DB LS unit := fun ls =>
  (inr tt, saved ls state).

(** [holds ls state]: loading [ls] yields the document [state]. *)
Definition holds (ls : LS) (state : DBState) : Prop :=
  fst (getInitialState ls) = inr state.

Lemma getInitialState_pure ls : snd (getInitialState ls) = ls.
Proof.
  unfold getInitialState.
  destruct (getItem ls STORAGE_KEY) as [v|]; [|done].
  destruct (truthy v); [destruct (parse v)|]; done.
Qed.

Lemma getInitialState_holds ls state :
  holds ls state -> getInitialState ls = (inr state, ls).
Proof.
  unfold holds. intros H.
  rewrite (surjective_pairing (getInitialState ls)), H, getInitialState_pure. done.
Qed.

Lemma holds_functional ls s1 s2 : holds ls s1 -> holds ls s2 -> s1 = s2.
Proof. unfold holds. congruence. Qed.

(** Running [state <- getInitialState; k state] from a storage that holds a document. *)
Lemma bind_getInitialState {A} ls state (k : DBState -> DB LS A) :
  holds ls state -> (getInitialState ≫= k) ls = k state ls.
Proof. intros H. unfold mbind, DB_bind. by rewrite (getInitialState_holds ls state H). Qed.

Lemma bind_saveState {A} ls state (k : unit -> DB LS A) :
  (saveState state ≫= k) ls = k tt (saved ls state).
Proof. done. Qed.

Lemma bind_step {A B} (m : DB LS A) (k : A -> DB LS B) ls a ls' :
  m ls = (inr a, ls') -> (m ≫= k) ls = k a ls'.
Proof. intros H. unfold mbind, DB_bind. by rewrite H. Qed.

Lemma bind_assoc_step {A B C} (m : DB LS A) (k : A -> DB LS B) (k2 : B -> DB LS C) ls a ls' :
  m ls = (inr a, ls') -> ((m ≫= k) ≫= k2) ls = (k a ≫= k2) ls'.
Proof. intros H. unfold mbind, DB_bind. by rewrite H. Qed.

Lemma bind_ret {A B} (a : A) (k : A -> DB LS B) ls : (mret a ≫= k) ls = k a ls.
Proof. done. Qed.

(** First run: no stored document loads as the empty document. *)
Lemma holds_fresh ls : getItem ls STORAGE_KEY = None -> holds ls initialState.
Proof. unfold holds, getInitialState. by intros ->. Qed.

Context `{!StorageLaws LS V} `{!CodecLaws V}.

(** What [saveState] writes, [getInitialState] reads back. *)
Lemma holds_saved ls state : holds (saved ls state) state.
Proof.
  unfold holds, getInitialState, saved.
  by rewrite getItem_setItem_eq, truthy_stringify, parse_stringify.
Qed.
End StateStore.

#[export] Hint Resolve holds_saved holds_fresh : js.

(** Run the [getInitialState] that starts a method, from a hypothesis
    [holds ls state]. *)
Ltac load_with H := rewrite (bind_getInitialState _ _ _ H).
