(* ===== verification/Users.v ===== *)
(** * Users: [getUsers], [addUser], [verifyUser], [updateUserCredits]

  db.ts lines 37-57.  [userById] is the search predicate every method
  that looks a user up passes to [find] ([u => u.id === userId]), and
  [withCredits] is the in-place update [user.credits += amount] that
  [updateUserCredits], [updateTransactionStatus] and [redeem] apply to
  the user they found. *)

From S2P Require Import Prelude Types Storage StateStore.

(** [u => u.id === userId] *)
Definition userById (userId : string) (u : User) : bool := u.(User.id) === userId.

(** [user.credits += amount] *)
Definition withCredits (amount : Z) (u : User) : User :=
  User.mkUser u.(User.id) u.(User.role) (u.(User.credits) + amount).

(** The result object [{ success: boolean; error?: string }]. *)
Module VerifyResult.
Record VerifyResult := mkVerifyResult { success : bool; error : option string }.
End VerifyResult.
Abbreviation VerifyResult := VerifyResult.VerifyResult.

(** [verifyUser] (lines 45-51) does not touch storage. *)
Definition verifyUser (token : string) : VerifyResult :=
  if (token !== ""%string) && (0 <? String.length token)%nat
  then VerifyResult.mkVerifyResult true None
  else VerifyResult.mkVerifyResult false (Some "Invalid or expired verification token"%string).

Section Ops.
Context `{!Storage LS V} `{!Codec V}.

Definition getUsers : DB LS (list User) :=
  state ← getInitialState; mret state.(users).

Definition addUser (user : User) : DB LS unit :=
  state ← getInitialState;
  saveState (set_users (push user) state).

Definition updateUserCredits (userId : string) (amount : Z) : DB LS unit :=
  state ← getInitialState;
  saveState (set_users (find_update (userById userId) (withCredits amount)) state).
End Ops.

(** ** Lemmas shared by every component that credits a user *)

Lemma userById_withCredits uid a u : userById uid (withCredits a u) = userById uid u.
Proof. done. Qed.

Lemma withCredits_credits a u : (withCredits a u).(User.credits) = (u.(User.credits) + a)%Z.
Proof. done. Qed.

(** Crediting the user found for [uid] is seen by the next lookup of [uid]. *)
Lemma find_credit uid a us u :
  find (userById uid) us = Some u ->
  find (userById uid) (find_update (userById uid) (withCredits a) us) = Some (withCredits a u).
Proof. intros H. apply find_find_update_same; [done|]. apply (find_true _ _ _ H). Qed.

(** ... and not by a lookup of any other id. *)
Lemma find_credit_other uid uid' f us :
  uid <> uid' -> (forall u, (f u).(User.id) = u.(User.id)) ->
  find (userById uid') (find_update (userById uid) f us) = find (userById uid') us.
Proof.
  intros Hne Hf. apply find_find_update_other. intros u Hu.
  unfold userById in *. rewrite Hf. js_decide. done.
Qed.

(** A user missing from the document stays missing. *)
Lemma find_credit_None uid f us :
  find (userById uid) us = None -> find_update (userById uid) f us = us.
Proof. apply find_update_None. Qed.

Section Props.
Context `{!Storage LS V} `{!Codec V} `{!StorageLaws LS V} `{!CodecLaws V}.

(** C24: [updateUserCredits] adds exactly [amount] to the credits of the
    user it finds, leaves every other user and every other
    collection unchanged, and writes the document. *)
Theorem updateUserCredits_found (ls : LS) (st : DBState) uid amount u :
  holds ls st -> find (userById uid) st.(users) = Some u ->
  exists st', updateUserCredits uid amount ls = (inr tt, saved ls st') /\
    holds (saved ls st') st' /\
    find (userById uid) st'.(users) = Some (withCredits amount u) /\
    (forall uid', uid <> uid' -> find (userById uid') st'.(users) = find (userById uid') st.(users)) /\
    st'.(items) = st.(items) /\ st'.(purchases) = st.(purchases) /\
    st'.(transactions) = st.(transactions) /\ st'.(redeemCodes) = st.(redeemCodes) /\
    st'.(tickets) = st.(tickets).
Proof.
  intros Hst Hu. eexists. split; [unfold updateUserCredits; by load_with Hst|].
  split; [apply holds_saved|]. simpl. split; [by apply find_credit|].
  split; [|done]. intros uid' Hne. by apply find_credit_other.
Qed.

(** when no user has the id, [updateUserCredits] still writes the
    document back, unchanged (the spec's no-op write). *)
Theorem updateUserCredits_missing (ls : LS) (st : DBState) uid amount :
  holds ls st -> find (userById uid) st.(users) = None ->
  updateUserCredits uid amount ls = (inr tt, saved ls st).
Proof.
  intros Hst Hu. unfold updateUserCredits. load_with Hst.
  unfold saveState, set_users. rewrite find_credit_None by done. by destruct st.
Qed.
End Props.

(** [verifyUser] succeeds exactly on the non-empty tokens. *)
Theorem verifyUser_success token :
  (verifyUser token).(VerifyResult.success) = true <-> token <> ""%string.
Proof.
  unfold verifyUser. destruct token as [|c t]; simpl.
  - split; [discriminate|done].
  - split; [discriminate|done].
Qed.

(** ** Witnesses *)

Lemma updateUserCredits_found_witness :
  exists st', updateUserCredits "U" 50 demoStorage = (inr tt, saved demoStorage st') /\
    find (userById "U") st'.(users) = Some (User.mkUser "U" UserRole.USER 150).
Proof.
  assert (H1 : holds demoStorage demoState) by witness_premise.
  assert (H2 : find (userById "U") demoState.(users) = Some demoUser) by witness_premise.
  destruct (updateUserCredits_found demoStorage demoState "U" 50 demoUser H1 H2) as (st' & Hrun & _ & Hu & _).
  exists st'. split; [exact Hrun|]. rewrite Hu. reflexivity.
Defined.

Lemma updateUserCredits_missing_witness :
  updateUserCredits "X" 50 demoStorage = (inr tt, saved demoStorage demoState).
Proof. apply updateUserCredits_missing; witness_premise. Defined.

