(* ===== verification/Purchases.v ===== *)
(** * Purchases: [getPurchases], [addPurchase], [processPurchase]

  db.ts lines 82-121.  [processPurchase] is the store's core operation:
  it looks the user and the item up, rejects a purchase the user cannot
  afford, fulfils it ([fulfil]: the item's content for an INSTANT item,
  the first undelivered unit for a SEQUENTIAL one, [takeAvailable]),
  debits the user, appends a [Purchase] record and writes the document.
  Every early [return] happens before the first mutation, so a failed
  purchase writes nothing. *)

From stdpp Require Import gmap.
From S2P Require Import Prelude Types Storage StateStore Users.

(** [{ success: boolean, content?: string, error?: string }] *)
Module PurchaseResult.
Record PurchaseResult := mkPurchaseResult {
  success : bool; content : option string; error : option string
}.
End PurchaseResult.
Abbreviation PurchaseResult := PurchaseResult.PurchaseResult.

Definition purchaseOk (c : string) : PurchaseResult := PurchaseResult.mkPurchaseResult true (Some c) None.
Definition purchaseError (e : string) : PurchaseResult := PurchaseResult.mkPurchaseResult false None (Some e).

(** [i => i.id === itemId] *)
Definition itemById (itemId : string) (i : Item) : bool := i.(Item.id) === itemId.

(** [si => !si.isDelivered] *)
Definition notDelivered (si : SequentialItem) : bool := negb si.(SequentialItem.isDelivered).

(** [available.isDelivered = true] *)
Definition markDelivered (si : SequentialItem) : SequentialItem :=
  SequentialItem.mkSequentialItem si.(SequentialItem.content) true.

(** [user.credits -= item.price] *)
Definition debit (price : Z) (u : User) : User :=
  User.mkUser u.(User.id) u.(User.role) (u.(User.credits) - price).

(** Lines 101-105: the first undelivered unit of the item's stock, the
    item with that unit marked delivered and [deliveredCount]
    incremented; [None] is the ['Out of stock'] return. *)
Definition takeAvailable (item : Item) : option (string * Item) :=
  match item.(Item.sequentialItems) with
  | None => None
  | Some sis =>
      match find notDelivered sis with
      | None => None
      | Some available =>
          Some (available.(SequentialItem.content),
                Item.mkItem item.(Item.id) item.(Item.name) item.(Item.price) item.(Item.type)
                  item.(Item.content) (Some (find_update notDelivered markDelivered sis))
                  (item.(Item.deliveredCount) + 1))
      end
  end.

(** Lines 97-106: the delivered content and the item after delivery. *)
Definition fulfil (item : Item) : option (string * Item) :=
  if item.(Item.type) === ItemType.INSTANT
  then Some (js_or item.(Item.content) "", item)
  else takeAvailable item.

(** Line 110: [Math.random().toString(36).substring(7)]. *)
Definition purchaseId (env : Env) : string :=
  String.substring 7 (String.length env.(random36)) env.(random36).

(** Lines 109-117: the record appended to the purchase log. *)
Definition mkPurchaseRecord (env : Env) (userId itemId : string) (item : Item) (c : string) : Purchase :=
  Purchase.mkPurchase (purchaseId env) userId itemId item.(Item.name) c env.(now) item.(Item.price).

(** The stock of a SEQUENTIAL item whose units carry the contents [cs],
    after its first [k] units were delivered. *)
Definition stockAfter (k : nat) (cs : list string) : list SequentialItem :=
  map (fun c => SequentialItem.mkSequentialItem c true) (take k cs) ++
  map (fun c => SequentialItem.mkSequentialItem c false) (drop k cs).

(** The number of units of an item marked delivered, and the consistency
    of the item's counter with it. *)
Definition deliveredUnits (it : Item) : nat :=
  length (List.filter SequentialItem.isDelivered (default [] it.(Item.sequentialItems))).

Definition countConsistent (it : Item) : Prop :=
  it.(Item.deliveredCount) = Z.of_nat (deliveredUnits it).

(** A SEQUENTIAL item whose only unit was delivered, in the demo document. *)
Definition demoExhausted : Item :=
  Item.mkItem "X" "Spent keys" 10 ItemType.SEQUENTIAL None
    (Some [SequentialItem.mkSequentialItem "K0" true]) 1.
Definition demoExhaustedStorage : gmap string DBState :=
  <[STORAGE_KEY := set_items (push demoExhausted) demoState]> ∅.

Section Ops.
Context `{!Storage LS V} `{!Codec V}.

Definition getPurchases : DB LS (list Purchase) :=
  state ← getInitialState; mret state.(purchases).

Definition addPurchase (purchase : Purchase) : DB LS unit :=
  state ← getInitialState;
  saveState (set_purchases (push purchase) state).

Definition processPurchase (env : Env) (userId itemId : string) : DB LS PurchaseResult :=
  state ← getInitialState;
  match find (userById userId) state.(users), find (itemById itemId) state.(items) with
  | Some user, Some item =>
      if (user.(User.credits) <? item.(Item.price))%Z
      then mret (purchaseError "Insufficient credits")
      else
        match fulfil item with
        | None => mret (purchaseError "Out of stock")
        | Some (c, item') =>
            let state := set_items (find_update (itemById itemId) (fun _ => item')) state in
            let state := set_users (find_update (userById userId) (debit item'.(Item.price))) state in
            let state := set_purchases (push (mkPurchaseRecord env userId itemId item' c)) state in
            saveState state;;
            mret (purchaseOk c)
        end
  | _, _ => mret (purchaseError "User or Item not found")
  end.

(** Repeated calls [processPurchase(userId, itemId)], one per clock
    reading of [envs], their results in order. *)
Fixpoint processPurchases (envs : list Env) (userId itemId : string) : DB LS (list PurchaseResult) :=
  match envs with
  | [] => mret []
  | env :: envs' =>
      r ← processPurchase env userId itemId;
      rs ← processPurchases envs' userId itemId;
      mret (r :: rs)
  end.
End Ops.

(** ** The purchase id *)

Lemma length_substring n m s : String.length (String.substring n m s) = Nat.min m (String.length s - n).
Proof. revert n m. induction s as [|c s IH]; intros [|n] [|m]; cbn [String.substring String.length]; rewrite ?IH; lia. Qed.

(** bounds of the purchase id [Math.random().toString(36).substring(7)]:
    its length is the length of the base-36 text minus 7, so it is empty
    whenever the text has at most 7 characters (nothing makes it a fresh
    identifier). *)
Theorem purchaseId_length env : String.length (purchaseId env) = String.length env.(random36) - 7.
Proof. unfold purchaseId. rewrite length_substring. lia. Qed.

(** ** Fulfilment *)

Lemma fulfil_instant item :
  item.(Item.type) = ItemType.INSTANT -> fulfil item = Some (js_or item.(Item.content) "", item).
Proof. unfold fulfil. by intros ->. Qed.

(** A SEQUENTIAL item delivers its first undelivered unit, marks it
    delivered in place and counts it. *)
Lemma fulfil_sequential item l1 si l2 :
  item.(Item.type) = ItemType.SEQUENTIAL ->
  item.(Item.sequentialItems) = Some (l1 ++ si :: l2) ->
  Forall (fun s => s.(SequentialItem.isDelivered) = true) l1 ->
  si.(SequentialItem.isDelivered) = false ->
  fulfil item = Some (si.(SequentialItem.content),
    Item.mkItem item.(Item.id) item.(Item.name) item.(Item.price) item.(Item.type)
      item.(Item.content) (Some (l1 ++ markDelivered si :: l2)) (item.(Item.deliveredCount) + 1)).
Proof.
  intros Ht Hs Hl1 Hsi. unfold fulfil, takeAvailable. rewrite Ht, Hs. simpl.
  assert (Forall (fun s => notDelivered s = false) l1) as Hnd.
  { eapply Forall_impl; [exact Hl1|]. intros s Hs'. unfold notDelivered. by rewrite Hs'. }
  rewrite find_app_Forall, find_update_app_Forall by done. simpl.
  unfold notDelivered at 1 3. rewrite Hsi. done.
Qed.

Lemma fulfil_out_of_stock item :
  item.(Item.type) = ItemType.SEQUENTIAL ->
  fulfil item = None <->
    match item.(Item.sequentialItems) with
    | None => True
    | Some sis => Forall (fun s => s.(SequentialItem.isDelivered) = true) sis
    end.
Proof.
  intros Ht. unfold fulfil, takeAvailable. rewrite Ht. simpl.
  destruct (Item.sequentialItems item) as [sis|]; [|done].
  rewrite <- (Forall_iff (fun s => notDelivered s = false))
    by (intros s; unfold notDelivered; destruct (SequentialItem.isDelivered s); naive_solver).
  rewrite <- find_None_Forall. destruct (find notDelivered sis); naive_solver.
Qed.

Lemma fulfil_item_fields item c item' :
  fulfil item = Some (c, item') ->
  item'.(Item.id) = item.(Item.id) /\ item'.(Item.name) = item.(Item.name) /\
  item'.(Item.price) = item.(Item.price) /\ item'.(Item.type) = item.(Item.type).
Proof.
  unfold fulfil, takeAvailable. case_bool_decide; [naive_solver|].
  destruct (Item.sequentialItems item); [|done]. destruct (find _ _); naive_solver.
Qed.

Lemma fulfil_stockAfter it k cs c :
  it.(Item.type) = ItemType.SEQUENTIAL -> it.(Item.sequentialItems) = Some (stockAfter k cs) ->
  cs !! k = Some c ->
  fulfil it = Some (c, Item.mkItem it.(Item.id) it.(Item.name) it.(Item.price) it.(Item.type)
    it.(Item.content) (Some (stockAfter (S k) cs)) (it.(Item.deliveredCount) + 1)).
Proof.
  intros Ht Hs Hc. unfold stockAfter in *. rewrite (drop_S _ _ _ Hc) in Hs. cbn [map] in Hs.
  rewrite (fulfil_sequential _ _ _ _ Ht Hs); [|by apply Forall_map, Forall_forall|done].
  by rewrite (take_S_r _ _ _ Hc), map_app, <- app_assoc.
Qed.

Lemma fulfil_stock_exhausted it cs :
  it.(Item.type) = ItemType.SEQUENTIAL ->
  it.(Item.sequentialItems) = Some (stockAfter (length cs) cs) -> fulfil it = None.
Proof.
  intros Ht Hs. apply fulfil_out_of_stock; [done|]. rewrite Hs. unfold stockAfter.
  rewrite take_ge, drop_all by done. simpl. rewrite app_nil_r. by apply Forall_map, Forall_forall.
Qed.

Lemma delivered_markDelivered sis x :
  find notDelivered sis = Some x ->
  length (List.filter SequentialItem.isDelivered (find_update notDelivered markDelivered sis)) =
  S (length (List.filter SequentialItem.isDelivered sis)).
Proof.
  intros Hx. destruct (find_update_split _ markDelivered _ _ Hx) as (l1 & l2 & -> & _ & ->).
  pose proof (find_true _ _ _ Hx) as Hnd. unfold notDelivered in Hnd.
  rewrite !List.filter_app, !length_app. simpl.
  destruct (SequentialItem.isDelivered x); simpl in *; [discriminate|lia].
Qed.

(** Delivering keeps an item's counter consistent with its stock. *)
Lemma fulfil_countConsistent it c it' :
  fulfil it = Some (c, it') -> countConsistent it -> countConsistent it'.
Proof.
  unfold fulfil, takeAvailable, countConsistent, deliveredUnits. case_bool_decide; [naive_solver|].
  destruct (Item.sequentialItems it) as [sis|]; [|done]. simpl.
  destruct (find notDelivered sis) as [x|] eqn:Hx; [|done]. intros [= <- <-] Hc. simpl.
  rewrite (delivered_markDelivered _ _ Hx). lia.
Qed.

(** ** Lookups after the item is replaced *)

Lemma find_replace_item iid items it it' :
  find (itemById iid) items = Some it -> it'.(Item.id) = it.(Item.id) ->
  find (itemById iid) (find_update (itemById iid) (fun _ => it') items) = Some it'.
Proof.
  intros Hi Hid. apply (find_find_update_same _ (fun _ => it') _ _ Hi).
  unfold itemById. rewrite Hid. exact (find_true _ _ _ Hi).
Qed.

Lemma find_replace_item_other iid iid' items it it' :
  iid <> iid' -> find (itemById iid) items = Some it -> it'.(Item.id) = it.(Item.id) ->
  find (itemById iid') (find_update (itemById iid) (fun _ => it') items) = find (itemById iid') items.
Proof.
  intros Hne Hi Hid. pose proof (find_true _ _ _ Hi) as Hit. unfold itemById in *.
  apply find_find_update_other. intros x Hx. rewrite Hid. js_decide. done.
Qed.

Section Props.
Context `{!Storage LS V} `{!Codec V}.

(** C2: no partial effects: a call of [processPurchase] that does not
    succeed leaves the storage exactly as it was (it writes nothing,
    whatever the branch, including a [SyntaxError] while loading). *)
Theorem processPurchase_fail_no_write env uid iid (ls : LS) :
  snd (processPurchase env uid iid ls) = ls \/
  exists c, fst (processPurchase env uid iid ls) = inr (purchaseOk c).
Proof.
  unfold processPurchase, mbind, DB_bind.
  pose proof (getInitialState_pure ls) as Hp.
  destruct (getInitialState ls) as [[e|st] ls'] eqn:E; simpl in Hp; subst ls'; [by left|].
  destruct (find (userById uid) st.(users)), (find (itemById iid) st.(items)); try by left.
  destruct (_ <? _)%Z; [by left|].
  destruct (fulfil _) as [[c it']|]; [right; by exists c|by left].
Qed.

(** C23: a missing user or item is reported as such. *)
Theorem processPurchase_not_found env uid iid (ls : LS) st :
  holds ls st ->
  find (userById uid) st.(users) = None \/ find (itemById iid) st.(items) = None ->
  processPurchase env uid iid ls = (inr (purchaseError "User or Item not found"), ls).
Proof.
  intros Hst Hnf. unfold processPurchase. load_with Hst.
  destruct Hnf as [-> | ->]; [done|]. by destruct (find _ _).
Qed.

Lemma processPurchase_insufficient_step env uid iid (ls : LS) st u it :
  holds ls st -> find (userById uid) st.(users) = Some u ->
  find (itemById iid) st.(items) = Some it -> (u.(User.credits) < it.(Item.price))%Z ->
  processPurchase env uid iid ls = (inr (purchaseError "Insufficient credits"), ls).
Proof.
  intros Hst Hu Hi Hlt. unfold processPurchase. load_with Hst.
  by rewrite Hu, Hi, (proj2 (Z.ltb_lt _ _) Hlt).
Qed.

(** C21: a user whose credits are below the price cannot buy. *)
Theorem processPurchase_insufficient env uid iid (ls : LS) st u it :
  holds ls st -> find (userById uid) st.(users) = Some u ->
  find (itemById iid) st.(items) = Some it -> (u.(User.credits) < it.(Item.price))%Z ->
  processPurchase env uid iid ls = (inr (purchaseError "Insufficient credits"), ls).
Proof. apply processPurchase_insufficient_step. Qed.

Lemma processPurchase_out_of_stock_step env uid iid (ls : LS) st u it :
  holds ls st -> find (userById uid) st.(users) = Some u ->
  find (itemById iid) st.(items) = Some it -> (it.(Item.price) <= u.(User.credits))%Z ->
  fulfil it = None ->
  processPurchase env uid iid ls = (inr (purchaseError "Out of stock"), ls).
Proof.
  intros Hst Hu Hi Hle Hf. unfold processPurchase. load_with Hst.
  by rewrite Hu, Hi, (proj2 (Z.ltb_ge _ _) Hle), Hf.
Qed.

(** C22: an affordable SEQUENTIAL item none of whose units is undelivered
    (every unit has [isDelivered], or it has no stock list) yields
    ['Out of stock'] and nothing is written. *)
Theorem processPurchase_out_of_stock env uid iid (ls : LS) st u it :
  holds ls st -> find (userById uid) st.(users) = Some u ->
  find (itemById iid) st.(items) = Some it -> (it.(Item.price) <= u.(User.credits))%Z ->
  it.(Item.type) = ItemType.SEQUENTIAL ->
  Forall (fun si => si.(SequentialItem.isDelivered) = true) (default [] it.(Item.sequentialItems)) ->
  processPurchase env uid iid ls = (inr (purchaseError "Out of stock"), ls).
Proof.
  intros Hst Hu Hi Hle Ht Hall. apply (processPurchase_out_of_stock_step env uid iid ls st u it Hst Hu Hi Hle).
  apply fulfil_out_of_stock; [done|]. by destruct (Item.sequentialItems it).
Qed.

Context `{!StorageLaws LS V} `{!CodecLaws V}.

Lemma processPurchase_success_step env uid iid (ls : LS) st u it c it' :
  holds ls st -> find (userById uid) st.(users) = Some u ->
  find (itemById iid) st.(items) = Some it -> (it.(Item.price) <= u.(User.credits))%Z ->
  fulfil it = Some (c, it') ->
  exists st', processPurchase env uid iid ls = (inr (purchaseOk c), saved ls st') /\
    holds (saved ls st') st' /\
    find (userById uid) st'.(users) = Some (debit it.(Item.price) u) /\
    find (itemById iid) st'.(items) = Some it' /\
    st'.(purchases) = st.(purchases) ++ [mkPurchaseRecord env uid iid it' c] /\
    (forall uid', uid <> uid' -> find (userById uid') st'.(users) = find (userById uid') st.(users)) /\
    (forall iid', iid <> iid' -> find (itemById iid') st'.(items) = find (itemById iid') st.(items)) /\
    st'.(transactions) = st.(transactions) /\ st'.(redeemCodes) = st.(redeemCodes) /\
    st'.(tickets) = st.(tickets).
Proof.
  intros Hst Hu Hi Hle Hf. destruct (fulfil_item_fields _ _ _ Hf) as (Hid & _ & Hpr & _).
  eexists. split.
  { unfold processPurchase. load_with Hst. by rewrite Hu, Hi, (proj2 (Z.ltb_ge _ _) Hle), Hf. }
  split; [apply holds_saved|]. simpl. rewrite Hpr.
  split; [apply find_find_update_same; [done|exact (find_true _ _ _ Hu)]|].
  split; [by apply find_replace_item with it|].
  split; [done|]. split; [intros; by apply find_credit_other|].
  split; [intros; by eapply find_replace_item_other|]. done.
Qed.

(** C1: a successful purchase debits the buyer by the price, replaces
    the item by its delivered version, appends exactly one purchase
    record (with the price and content snapshots), returns the
    content and changes nothing else. *)
Theorem processPurchase_success env uid iid (ls : LS) st u it c it' :
  holds ls st -> find (userById uid) st.(users) = Some u ->
  find (itemById iid) st.(items) = Some it -> (it.(Item.price) <= u.(User.credits))%Z ->
  fulfil it = Some (c, it') ->
  exists st', processPurchase env uid iid ls = (inr (purchaseOk c), saved ls st') /\
    holds (saved ls st') st' /\
    find (userById uid) st'.(users) =
      Some (User.mkUser u.(User.id) u.(User.role) (u.(User.credits) - it.(Item.price))) /\
    find (itemById iid) st'.(items) = Some it' /\
    st'.(purchases) = st.(purchases) ++ [mkPurchaseRecord env uid iid it' c] /\
    (forall uid', uid <> uid' -> find (userById uid') st'.(users) = find (userById uid') st.(users)) /\
    (forall iid', iid <> iid' -> find (itemById iid') st'.(items) = find (itemById iid') st.(items)) /\
    st'.(transactions) = st.(transactions) /\ st'.(redeemCodes) = st.(redeemCodes) /\
    st'.(tickets) = st.(tickets).
Proof. apply processPurchase_success_step. Qed.

Lemma processPurchases_stock envs (ls : LS) st uid iid u it cs k :
  holds ls st -> find (userById uid) st.(users) = Some u ->
  find (itemById iid) st.(items) = Some it ->
  it.(Item.type) = ItemType.SEQUENTIAL -> it.(Item.sequentialItems) = Some (stockAfter k cs) ->
  (0 <= it.(Item.price))%Z -> k <= length cs ->
  (Z.of_nat (S (length cs - k)) * it.(Item.price) <= u.(User.credits))%Z ->
  length envs = S (length cs - k) ->
  fst (processPurchases envs uid iid ls) =
    inr (map purchaseOk (drop k cs) ++ [purchaseError "Out of stock"]).
Proof.
  revert ls st u it k. induction envs as [|env envs IH];
    intros ls st u it k Hst Hu Hi Ht Hs Hp Hk Hc Hlen; [done|].
  assert (it.(Item.price) <= u.(User.credits))%Z as Hle by nia.
  destruct (decide (k < length cs)) as [Hlt|Hge].
  - destruct (lookup_lt_is_Some_2 cs k Hlt) as [c Hck].
    pose proof (fulfil_stockAfter _ _ _ _ Ht Hs Hck) as Hf.
    destruct (processPurchase_success_step env uid iid ls st u it _ _ Hst Hu Hi Hle Hf)
      as (st' & Hrun & Hst' & Hu' & Hi' & _).
    cbn [processPurchases]. rewrite (bind_step _ _ _ _ _ Hrun).
    assert (fst (processPurchases envs uid iid (saved ls st')) =
      inr (map purchaseOk (drop (S k) cs) ++ [purchaseError "Out of stock"])) as IH'.
    { apply (IH _ _ _ _ (S k) Hst' Hu' Hi' Ht eq_refl Hp Hlt); simpl in *; [|lia].
      assert (length cs - k = S (length cs - S k)) as Hn by lia. rewrite Hn in Hc. nia. }
    destruct (processPurchases envs uid iid (saved ls st')) as [res ls''] eqn:E.
    simpl in IH'. subst res. rewrite (bind_step _ _ _ _ _ E). by rewrite (drop_S _ _ _ Hck).
  - assert (k = length cs) as -> by lia.
    rewrite drop_all. rewrite Nat.sub_diag in Hlen. destruct envs; [|done].
    cbn [processPurchases]. by rewrite (bind_step _ _ _ _ _ (processPurchase_out_of_stock_step
      env uid iid ls st u it Hst Hu Hi Hle (fulfil_stock_exhausted _ _ Ht Hs))).
Qed.

(** C3: the spec's stock property: a SEQUENTIAL item whose [N] units are
    all undelivered serves [N + 1] consecutive purchases of a user who
    can afford [N + 1] units as [N] successes that deliver the units'
    contents in list order, then one ['Out of stock'] failure. *)
Theorem processPurchase_sequential_stock envs (ls : LS) st uid iid u it cs :
  holds ls st -> find (userById uid) st.(users) = Some u ->
  find (itemById iid) st.(items) = Some it ->
  it.(Item.type) = ItemType.SEQUENTIAL ->
  it.(Item.sequentialItems) = Some (map (fun c => SequentialItem.mkSequentialItem c false) cs) ->
  (0 <= it.(Item.price))%Z ->
  (Z.of_nat (S (length cs)) * it.(Item.price) <= u.(User.credits))%Z ->
  length envs = S (length cs) ->
  fst (processPurchases envs uid iid ls) =
    inr (map purchaseOk cs ++ [purchaseError "Out of stock"]).
Proof.
  intros Hst Hu Hi Ht Hs Hp Hc Hlen.
  apply (processPurchases_stock envs ls st uid iid u it cs 0); try done; [lia| |].
  - by rewrite Nat.sub_0_r.
  - by rewrite Nat.sub_0_r.
Qed.

Lemma processPurchases_exact envs (ls : LS) st uid iid u it cs k :
  holds ls st -> find (userById uid) st.(users) = Some u ->
  find (itemById iid) st.(items) = Some it ->
  it.(Item.type) = ItemType.SEQUENTIAL -> it.(Item.sequentialItems) = Some (stockAfter k cs) ->
  (0 < it.(Item.price))%Z -> k <= length cs ->
  u.(User.credits) = (Z.of_nat (length cs - k) * it.(Item.price))%Z ->
  length envs = S (length cs - k) ->
  fst (processPurchases envs uid iid ls) =
    inr (map purchaseOk (drop k cs) ++ [purchaseError "Insufficient credits"]).
Proof.
  revert ls st u it k. induction envs as [|env envs IH];
    intros ls st u it k Hst Hu Hi Ht Hs Hp Hk Hc Hlen; [done|].
  destruct (decide (k < length cs)) as [Hlt|Hge].
  - assert (it.(Item.price) <= u.(User.credits))%Z as Hle by (rewrite Hc; nia).
    destruct (lookup_lt_is_Some_2 cs k Hlt) as [c Hck].
    pose proof (fulfil_stockAfter _ _ _ _ Ht Hs Hck) as Hf.
    destruct (processPurchase_success_step env uid iid ls st u it _ _ Hst Hu Hi Hle Hf)
      as (st' & Hrun & Hst' & Hu' & Hi' & _).
    cbn [processPurchases]. rewrite (bind_step _ _ _ _ _ Hrun).
    assert (fst (processPurchases envs uid iid (saved ls st')) =
      inr (map purchaseOk (drop (S k) cs) ++ [purchaseError "Insufficient credits"])) as IH'.
    { apply (IH _ _ _ _ (S k) Hst' Hu' Hi' Ht eq_refl Hp Hlt); simpl in *; [|lia].
      rewrite Hc. assert (length cs - k = S (length cs - S k)) as -> by lia. nia. }
    destruct (processPurchases envs uid iid (saved ls st')) as [res ls''] eqn:E.
    simpl in IH'. subst res. rewrite (bind_step _ _ _ _ _ E). by rewrite (drop_S _ _ _ Hck).
  - assert (k = length cs) as -> by lia.
    rewrite drop_all. rewrite Nat.sub_diag in Hlen, Hc. destruct envs; [|done].
    cbn [processPurchases]. by rewrite (bind_step _ _ _ _ _ (processPurchase_insufficient_step
      env uid iid ls st u it Hst Hu Hi ltac:(lia))).
Qed.

(** C27: the credit check precedes the stock check: a buyer whose credits
    pay for exactly the [N] units of a SEQUENTIAL stock (price positive)
    gets the [N] units in order and then ['Insufficient credits'], not
    ['Out of stock'], on the next call; for every [N]. *)
Theorem processPurchase_exact_credits envs (ls : LS) st uid iid u it cs :
  holds ls st -> find (userById uid) st.(users) = Some u ->
  find (itemById iid) st.(items) = Some it ->
  it.(Item.type) = ItemType.SEQUENTIAL ->
  it.(Item.sequentialItems) = Some (map (fun c => SequentialItem.mkSequentialItem c false) cs) ->
  (0 < it.(Item.price))%Z -> u.(User.credits) = (Z.of_nat (length cs) * it.(Item.price))%Z ->
  length envs = S (length cs) ->
  fst (processPurchases envs uid iid ls) =
    inr (map purchaseOk cs ++ [purchaseError "Insufficient credits"]).
Proof.
  intros Hst Hu Hi Ht Hs Hp Hc Hlen.
  apply (processPurchases_exact envs ls st uid iid u it cs 0); try done; [lia|by rewrite Nat.sub_0_r|by rewrite Nat.sub_0_r].
Qed.
End Props.

(** ** Witnesses *)

Lemma processPurchase_success_witness :
  exists st', processPurchase demoEnv "U" "I" demoStorage = (inr (purchaseOk "CODE123"), saved demoStorage st') /\
    find (userById "U") st'.(users) = Some (debit 30 demoUser) /\
    st'.(purchases) = [Purchase.mkPurchase "82mvyr" "U" "I" "Gift card" "CODE123" 1700000000000 30].
Proof.
  assert (H1 : holds demoStorage demoState) by (vm_compute; reflexivity).
  assert (H2 : find (userById "U") demoState.(users) = Some demoUser) by (vm_compute; reflexivity).
  assert (H3 : find (itemById "I") demoState.(items) = Some demoInstant) by (vm_compute; reflexivity).
  assert (H4 : (demoInstant.(Item.price) <= demoUser.(User.credits))%Z) by (vm_compute; discriminate).
  assert (H5 : fulfil demoInstant = Some ("CODE123"%string, demoInstant)) by (vm_compute; reflexivity).
  destruct (processPurchase_success demoEnv "U" "I" demoStorage demoState demoUser demoInstant _ _ H1 H2 H3 H4 H5)
    as (st' & Hrun & _ & Hu & _ & Hp & _).
  exists st'. split; [exact Hrun|]. split; [exact Hu|]. rewrite Hp. vm_compute. reflexivity.
Defined.

Lemma processPurchase_sequential_stock_witness :
  fst (processPurchases [demoEnv; demoEnv; demoEnv] "U" "S" demoStorage) =
    inr (map purchaseOk ["K1"; "K2"] ++ [purchaseError "Out of stock"]).
Proof.
  assert (H1 : holds demoStorage demoState) by (vm_compute; reflexivity).
  assert (H2 : find (userById "U") demoState.(users) = Some demoUser) by (vm_compute; reflexivity).
  assert (H3 : find (itemById "S") demoState.(items) = Some demoSequential) by (vm_compute; reflexivity).
  exact (processPurchase_sequential_stock [demoEnv; demoEnv; demoEnv] demoStorage demoState "U" "S"
    demoUser demoSequential ["K1"; "K2"] H1 H2 H3 eq_refl eq_refl
    ltac:(vm_compute; discriminate) ltac:(vm_compute; discriminate) eq_refl).
Defined.

Lemma processPurchase_insufficient_witness :
  processPurchase demoEnv "P" "I" demoStorage = (inr (purchaseError "Insufficient credits"), demoStorage).
Proof.
  apply (processPurchase_insufficient demoEnv "P" "I" demoStorage demoState demoPoorUser demoInstant);
    witness_premise.
Defined.

Lemma processPurchase_out_of_stock_witness :
  processPurchase demoEnv "U" "X" demoExhaustedStorage =
    (inr (purchaseError "Out of stock"), demoExhaustedStorage).
Proof.
  apply (processPurchase_out_of_stock demoEnv "U" "X" demoExhaustedStorage
    (set_items (push demoExhausted) demoState) demoUser demoExhausted); try witness_premise.
  repeat constructor.
Defined.

Lemma processPurchase_not_found_witness :
  processPurchase demoEnv "X" "I" demoStorage = (inr (purchaseError "User or Item not found"), demoStorage).
Proof.
  apply (processPurchase_not_found demoEnv "X" "I" demoStorage demoState); [witness_premise|].
  left. witness_premise.
Defined.

Lemma processPurchase_exact_credits_witness :
  fst (processPurchases [demoEnv; demoEnv; demoEnv] "U" "S" demoStorageExact) =
    inr (map purchaseOk ["K1"; "K2"] ++ [purchaseError "Insufficient credits"]).
Proof.
  assert (H1 : holds demoStorageExact (mkDBState [User.mkUser "U" UserRole.USER 20] [demoSequential] [] [] [] []))
    by (vm_compute; reflexivity).
  exact (processPurchase_exact_credits [demoEnv; demoEnv; demoEnv] demoStorageExact _ "U" "S"
    (User.mkUser "U" UserRole.USER 20) demoSequential ["K1"; "K2"] H1 eq_refl eq_refl eq_refl eq_refl
    ltac:(vm_compute; reflexivity) ltac:(vm_compute; reflexivity) eq_refl).
Defined.
