(* ===== verification/Items.v ===== *)
(** * Items: [getItems], [addItem], [updateItem], [deleteItem]

    db.ts lines 59-80.  [updateItem] locates the record with
    [findIndex] and overwrites that index ([state.items[index] = item]),
    writing only when the index is not [-1]; [deleteItem] keeps the
    records whose id differs ([filter]), so it removes every record with
    the id.  The spec's property on add/delete sequences is proved against
    an abstract specification ([survivors]): the items that remain are
    the initial ones never deleted, then each added item not deleted after
    its addition, in insertion order.  [updateItem]'s index arithmetic is
    proved equivalent to a reference definition that replaces the first
    item with the id ([updateItem_equiv]). *)

From S2P Require Import Prelude Types Storage StateStore Users Purchases.

Section Ops.
Context `{!Storage LS V} `{!Codec V}.

Definition getItems : DB LS (list Item) :=
  state ← getInitialState; mret state.(items).

Definition addItem (item : Item) : DB LS unit :=
  state ← getInitialState;
  saveState (set_items (push item) state).

Definition updateItem (item : Item) : DB LS bool :=
  state ← getInitialState;
  let index := findIndex (itemById item.(Item.id)) state.(items) in
  if bool_decide (index <> (-1)%Z) then
    saveState (set_items (fun its => <[Z.to_nat index := item]> its) state);;
    mret true
  else mret false.

(** [i => i.id !== itemId] *)
Definition keepItem (itemId : string) (i : Item) : bool := i.(Item.id) !== itemId.

Definition deleteItem (itemId : string) : DB LS unit :=
  state ← getInitialState;
  saveState (set_items (List.filter (keepItem itemId)) state).

(** A sequence of [addItem] / [deleteItem] calls. *)
Inductive ItemOp := AddItemOp (item : Item) | DeleteItemOp (itemId : string).

Definition runItemOp (op : ItemOp) : DB LS unit :=
  match op with
  | AddItemOp item => addItem item
  | DeleteItemOp itemId => deleteItem itemId
  end.

Fixpoint runItemOps (ops : list ItemOp) : DB LS unit :=
  match ops with
  | [] => mret tt
  | op :: ops' => runItemOp op;; runItemOps ops'
  end.
End Ops.

(** ** Reference definition of [updateItem]

    What [updateItem] means: replace the first item with the id, as the
    other methods do through the reference [find] returns, or answer
    [false] without writing. *)
Section Reference.
Context `{!Storage LS V} `{!Codec V}.

Definition updateItem_spec (item : Item) : DB LS bool :=
  state ← getInitialState;
  match find (itemById item.(Item.id)) state.(items) with
  | Some _ =>
      saveState (set_items (find_update (itemById item.(Item.id)) (fun _ => item)) state);;
      mret true
  | None => mret false
  end.
End Reference.

(** ** Abstract specification of add/delete sequences *)

(** [deletedIn ops id]: some later call deletes [id]. *)
Definition deletedIn (ops : list ItemOp) (itemId : string) : bool :=
  existsb (fun op => match op with DeleteItemOp d => itemId === d | AddItemOp _ => false end) ops.

(** The added items no later call deletes, in insertion order. *)
Fixpoint survivors (ops : list ItemOp) : list Item :=
  match ops with
  | [] => []
  | AddItemOp item :: ops' =>
      if deletedIn ops' item.(Item.id) then survivors ops' else item :: survivors ops'
  | DeleteItemOp _ :: ops' => survivors ops'
  end.

(** [demoSequential] repriced and emptied by an admin, and an item the
    demo document does not have. *)
Definition demoRepriced : Item := Item.mkItem "S" "Game keys" 12 ItemType.SEQUENTIAL None None 0.
Definition demoNewItem : Item := Item.mkItem "Z" "New" 1 ItemType.INSTANT None None 0.

Definition demoItemOps : list ItemOp :=
  [AddItemOp demoSoldOut; DeleteItemOp "I"; AddItemOp demoInstant; DeleteItemOp "S"].

(** The effect of one add/delete call on the loaded document. *)
Definition applyItemOp (op : ItemOp) (st : DBState) : DBState :=
  match op with
  | AddItemOp item => set_items (push item) st
  | DeleteItemOp itemId => set_items (List.filter (keepItem itemId)) st
  end.

(** ** Properties *)

Lemma filter_deletedIn_nil l :
  List.filter (fun i : Item => negb (deletedIn [] i.(Item.id))) l = l.
Proof. apply List.filter_true. Qed.

Section Props.
Context `{!Storage LS V} `{!Codec V} `{!StorageLaws LS V} `{!CodecLaws V}.

(** [updateItem]'s index arithmetic ([findIndex], then assignment at
    the index, guarded by [index !== -1]) is equivalent to the reference
    definition [updateItem_spec]: same answer and same storage, on every
    storage, the unreadable one included. *)
Theorem updateItem_equiv (item : Item) (ls : LS) : updateItem item ls = updateItem_spec item ls.
Proof.
  unfold updateItem, updateItem_spec, mbind, DB_bind.
  destruct (getInitialState ls) as [[e|st] ls'] eqn:E; [done|].
  destruct (find (itemById item.(Item.id)) st.(items)) eqn:Hf.
  - assert (findIndex (itemById item.(Item.id)) st.(items) <> (-1)%Z) as Hi
      by (rewrite findIndex_neg; congruence).
    rewrite bool_decide_eq_true_2 by done. unfold set_items. by rewrite findIndex_insert.
  - apply findIndex_neg in Hf. by rewrite Hf.
Qed.

Lemma runItemOp_holds op (ls : LS) st :
  holds ls st -> runItemOp op ls = (inr tt, saved ls (applyItemOp op st)).
Proof.
  intros Hst. destruct op; simpl; [unfold addItem|unfold deleteItem]; by load_with Hst.
Qed.

(** C13: the spec's add/delete property: after any sequence of [addItem] and
    [deleteItem] calls, [getItems] returns the initial items no call
    deleted followed by the added items no later call deleted, each
    group in insertion order. *)
Theorem runItemOps_getItems ops (ls : LS) st :
  holds ls st ->
  fst ((runItemOps ops;; getItems) ls) =
    inr (List.filter (fun i => negb (deletedIn ops i.(Item.id))) st.(items) ++ survivors ops).
Proof.
  revert ls st. induction ops as [|op ops IH]; intros ls st Hst.
  - cbn [runItemOps]. rewrite bind_ret. unfold getItems. load_with Hst.
    by rewrite filter_deletedIn_nil, app_nil_r.
  - cbn [runItemOps]. rewrite (bind_assoc_step _ _ _ _ _ _ (runItemOp_holds op ls st Hst)).
    rewrite (IH _ _ (holds_saved _ _)). f_equal. destruct op as [item|d]; simpl.
    + unfold push. rewrite List.filter_app, <- app_assoc. f_equal. simpl.
      destruct (deletedIn ops (Item.id item)); simpl; done.
    + rewrite filter_filter_andb. f_equal. apply List.filter_ext. intros i.
      unfold keepItem. by destruct (_ === d), (deletedIn ops _).
Qed.

Lemma updateItem_found_step (ls : LS) st item old :
  holds ls st -> find (itemById item.(Item.id)) st.(items) = Some old ->
  exists l1 l2, st.(items) = l1 ++ old :: l2 /\
    Forall (fun i => i.(Item.id) <> item.(Item.id)) l1 /\
    updateItem item ls = (inr true, saved ls (set_items (fun _ => l1 ++ item :: l2) st)).
Proof.
  intros Hst Hold. unfold updateItem. load_with Hst.
  destruct (find_update_split _ (fun _ => item) _ _ Hold) as (l1 & l2 & Hsplit & Hl1 & Hupd).
  exists l1, l2. split; [done|]. split.
  { eapply Forall_impl; [exact Hl1|]. intros i Hi. unfold itemById in Hi. by js_decide. }
  assert (findIndex (itemById item.(Item.id)) st.(items) <> (-1)%Z) as Hidx.
  { rewrite findIndex_neg. congruence. }
  rewrite bool_decide_eq_true_2 by done. unfold set_items. simpl.
  rewrite findIndex_insert, Hupd by done. done.
Qed.

(** C14: [updateItem] on an id present in the document overwrites, at its
    position, the first item with that id and writes the document; the
    items before it and after it are unchanged. *)
Theorem updateItem_found (ls : LS) st item old :
  holds ls st -> find (itemById item.(Item.id)) st.(items) = Some old ->
  exists l1 l2, st.(items) = l1 ++ old :: l2 /\
    Forall (fun i => i.(Item.id) <> item.(Item.id)) l1 /\
    updateItem item ls = (inr true, saved ls (set_items (fun _ => l1 ++ item :: l2) st)).
Proof. apply updateItem_found_step. Qed.

(** C15: [updateItem] on an absent id returns [false] and writes nothing. *)
Theorem updateItem_missing (ls : LS) st item :
  holds ls st -> find (itemById item.(Item.id)) st.(items) = None ->
  updateItem item ls = (inr false, ls).
Proof.
  intros Hst Hnone. unfold updateItem. load_with Hst.
  apply findIndex_neg in Hnone. rewrite Hnone. done.
Qed.

(** [deleteItem] removes every item with the id (not only the first)
    and keeps the other items in their order. *)
Theorem deleteItem_removes_all (ls : LS) st itemId :
  holds ls st ->
  exists st', deleteItem itemId ls = (inr tt, saved ls st') /\ holds (saved ls st') st' /\
    Forall (fun i => i.(Item.id) <> itemId) st'.(items) /\
    st'.(items) = List.filter (fun i => i.(Item.id) !== itemId) st.(items).
Proof.
  intros Hst. eexists. split; [unfold deleteItem; by load_with Hst|].
  split; [apply holds_saved|]. simpl. split; [|done].
  apply Forall_forall. intros i Hi. apply list_elem_of_In, filter_In in Hi as [_ Hk].
  unfold keepItem in Hk. by js_decide.
Qed.
End Props.

(** ** Witnesses *)

Lemma runItemOps_getItems_witness :
  fst ((runItemOps demoItemOps;; getItems) demoStorage) = inr [demoSoldOut; demoSoldOut; demoInstant].
Proof.
  assert (H : holds demoStorage demoState) by witness_premise.
  rewrite (runItemOps_getItems demoItemOps demoStorage demoState H). vm_compute. reflexivity.
Defined.

Lemma updateItem_found_witness :
  exists l1 l2, demoState.(items) = l1 ++ demoSequential :: l2 /\
    Forall (fun i => i.(Item.id) <> "S"%string) l1 /\
    updateItem demoRepriced demoStorage =
      (inr true, saved demoStorage (set_items (fun _ => l1 ++ demoRepriced :: l2) demoState)).
Proof. apply (updateItem_found demoStorage demoState demoRepriced demoSequential); witness_premise. Defined.

Lemma updateItem_missing_witness :
  updateItem demoNewItem demoStorage = (inr false, demoStorage).
Proof. apply (updateItem_missing demoStorage demoState demoNewItem); witness_premise. Defined.

Lemma deleteItem_removes_all_witness :
  exists st', deleteItem "I" demoStorage = (inr tt, saved demoStorage st') /\ holds (saved demoStorage st') st' /\
    Forall (fun i => i.(Item.id) <> "I"%string) st'.(items) /\
    st'.(items) = List.filter (fun i => i.(Item.id) !== "I"%string) demoState.(items).
Proof. apply deleteItem_removes_all. witness_premise. Defined.

