(* ===== verification/Transactions.v ===== *)
(** * Transactions: [getTransactions], [addTransaction], [updateTransactionStatus]

    db.ts lines 123-141.  [updateTransactionStatus] sets the status of the
    first transaction with the id and, when the new status is APPROVED,
    credits the transaction's amount to the first user with the
    transaction's [userId]; it writes the document whether or not the
    transaction exists.  Nothing guards against approving twice: the
    theorems below prove both the single-approval effect and that a second
    approval credits the amount again (spec, section 9). *)

From stdpp Require Import gmap.
From S2P Require Import Prelude Types Storage StateStore Users.

(** [t => t.id === id] *)
Definition txById (id : string) (t : Transaction) : bool := t.(Transaction.id) === id.

(** [tx.status = status] *)
Definition withStatus (status : TransactionStatus) (t : Transaction) : Transaction :=
  Transaction.mkTransaction t.(Transaction.id) t.(Transaction.userId) t.(Transaction.amount) status.

Section Ops.
Context `{!Storage LS V} `{!Codec V}.

Definition getTransactions : DB LS (list Transaction) :=
  state ← getInitialState; mret state.(transactions).

Definition addTransaction (transaction : Transaction) : DB LS unit :=
  state ← getInitialState;
  saveState (set_transactions (push transaction) state).

Definition updateTransactionStatus (id : string) (status : TransactionStatus) : DB LS unit :=
  state ← getInitialState;
  match find (txById id) state.(transactions) with
  | Some tx =>
      let state := set_transactions (find_update (txById id) (withStatus status)) state in
      let state :=
        if status === TransactionStatus.APPROVED
        then set_users (find_update (userById tx.(Transaction.userId))
                          (withCredits tx.(Transaction.amount))) state
        else state in
      saveState state
  | None => saveState state
  end.
End Ops.

Definition demoTx : Transaction := Transaction.mkTransaction "T1" "U" 25 TransactionStatus.PENDING.
Definition demoTxState : DBState := set_transactions (fun _ => [demoTx]) demoState.
Definition demoTxStorage : gmap string DBState := <[STORAGE_KEY := demoTxState]> ∅.

(** ** Properties *)

Lemma find_withStatus id status txs tx :
  find (txById id) txs = Some tx ->
  find (txById id) (find_update (txById id) (withStatus status) txs) = Some (withStatus status tx).
Proof. intros H. apply find_find_update_same; [done|exact (find_true _ _ _ H)]. Qed.

Section Props.
Context `{!Storage LS V} `{!Codec V} `{!StorageLaws LS V} `{!CodecLaws V}.

Lemma updateTransactionStatus_approved_step (ls : LS) st id tx u :
  holds ls st -> find (txById id) st.(transactions) = Some tx ->
  find (userById tx.(Transaction.userId)) st.(users) = Some u ->
  exists st', updateTransactionStatus id TransactionStatus.APPROVED ls = (inr tt, saved ls st') /\
    holds (saved ls st') st' /\
    find (txById id) st'.(transactions) = Some (withStatus TransactionStatus.APPROVED tx) /\
    find (userById tx.(Transaction.userId)) st'.(users) = Some (withCredits tx.(Transaction.amount) u) /\
    (forall uid, uid <> tx.(Transaction.userId) ->
       find (userById uid) st'.(users) = find (userById uid) st.(users)) /\
    st'.(items) = st.(items) /\ st'.(purchases) = st.(purchases) /\
    st'.(redeemCodes) = st.(redeemCodes) /\ st'.(tickets) = st.(tickets).
Proof.
  intros Hst Htx Hu. eexists. split.
  { unfold updateTransactionStatus. load_with Hst. rewrite Htx. reflexivity. }
  split; [apply holds_saved|]. simpl.
  split; [by apply find_withStatus|]. split; [by apply find_credit|].
  split; [|done]. intros uid Hne. apply find_credit_other; [congruence|done].
Qed.

(** C11: approving a transaction sets its status to APPROVED and credits its
    amount to its user, exactly once per call; no other user and no other
    collection changes. *)
Theorem updateTransactionStatus_approved (ls : LS) st id tx u :
  holds ls st -> find (txById id) st.(transactions) = Some tx ->
  find (userById tx.(Transaction.userId)) st.(users) = Some u ->
  exists st', updateTransactionStatus id TransactionStatus.APPROVED ls = (inr tt, saved ls st') /\
    holds (saved ls st') st' /\
    find (txById id) st'.(transactions) = Some (withStatus TransactionStatus.APPROVED tx) /\
    find (userById tx.(Transaction.userId)) st'.(users) = Some (withCredits tx.(Transaction.amount) u) /\
    (forall uid, uid <> tx.(Transaction.userId) ->
       find (userById uid) st'.(users) = find (userById uid) st.(users)) /\
    st'.(items) = st.(items) /\ st'.(purchases) = st.(purchases) /\
    st'.(redeemCodes) = st.(redeemCodes) /\ st'.(tickets) = st.(tickets).
Proof. apply updateTransactionStatus_approved_step. Qed.

(** C25: any status other than APPROVED only sets the status: no user's
    credits change. *)
Theorem updateTransactionStatus_other (ls : LS) st id tx status :
  holds ls st -> find (txById id) st.(transactions) = Some tx ->
  status <> TransactionStatus.APPROVED ->
  exists st', updateTransactionStatus id status ls = (inr tt, saved ls st') /\
    holds (saved ls st') st' /\
    find (txById id) st'.(transactions) = Some (withStatus status tx) /\
    st'.(users) = st.(users) /\ st'.(items) = st.(items) /\ st'.(purchases) = st.(purchases) /\
    st'.(redeemCodes) = st.(redeemCodes) /\ st'.(tickets) = st.(tickets).
Proof.
  intros Hst Htx Hne. eexists. split.
  { unfold updateTransactionStatus. load_with Hst. rewrite Htx.
    rewrite bool_decide_eq_false_2 by done. reflexivity. }
  split; [apply holds_saved|]. simpl. split; [by apply find_withStatus|]. done.
Qed.

(** C12: the missing idempotence guard: approving the same transaction twice
    credits its amount twice. *)
Theorem updateTransactionStatus_approve_twice (ls : LS) st id tx u :
  holds ls st -> find (txById id) st.(transactions) = Some tx ->
  find (userById tx.(Transaction.userId)) st.(users) = Some u ->
  exists ls'' st'', (updateTransactionStatus id TransactionStatus.APPROVED;;
                    updateTransactionStatus id TransactionStatus.APPROVED) ls = (inr tt, ls'') /\
    holds ls'' st'' /\ exists u'', find (userById tx.(Transaction.userId)) st''.(users) = Some u'' /\
      u''.(User.credits) = (u.(User.credits) + 2 * tx.(Transaction.amount))%Z.
Proof.
  intros Hst Htx Hu.
  destruct (updateTransactionStatus_approved_step ls st id tx u Hst Htx Hu)
    as (st' & Hrun & Hst' & Htx' & Hu' & _).
  destruct (updateTransactionStatus_approved_step _ st' id _ _ Hst' Htx' Hu')
    as (st'' & Hrun' & Hst'' & _ & Hu'' & _).
  eexists _, st''. rewrite (bind_step _ _ _ _ _ Hrun), Hrun'. split; [reflexivity|]. split; [exact Hst''|].
  eexists. split; [exact Hu''|]. simpl. lia.
Qed.

(** an unknown transaction id changes nothing, yet the document is
    written back. *)
Theorem updateTransactionStatus_missing (ls : LS) st id status :
  holds ls st -> find (txById id) st.(transactions) = None ->
  updateTransactionStatus id status ls = (inr tt, saved ls st).
Proof. intros Hst Hnone. unfold updateTransactionStatus. load_with Hst. by rewrite Hnone. Qed.
End Props.

(** ** Witnesses *)

Lemma updateTransactionStatus_approved_witness :
  exists st', updateTransactionStatus "T1" TransactionStatus.APPROVED demoTxStorage = (inr tt, saved demoTxStorage st') /\
    find (userById "U") st'.(users) = Some (User.mkUser "U" UserRole.USER 125).
Proof.
  assert (H1 : holds demoTxStorage demoTxState) by witness_premise.
  assert (H2 : find (txById "T1") demoTxState.(transactions) = Some demoTx) by witness_premise.
  assert (H3 : find (userById demoTx.(Transaction.userId)) demoTxState.(users) = Some demoUser) by witness_premise.
  destruct (updateTransactionStatus_approved _ _ _ _ _ H1 H2 H3) as (st' & Hrun & _ & _ & Hu & _).
  exists st'. split; [exact Hrun|]. exact Hu.
Defined.

Lemma updateTransactionStatus_other_witness :
  exists st', updateTransactionStatus "T1" TransactionStatus.REJECTED demoTxStorage = (inr tt, saved demoTxStorage st') /\
    holds (saved demoTxStorage st') st' /\
    find (txById "T1") st'.(transactions) = Some (withStatus TransactionStatus.REJECTED demoTx) /\
    st'.(users) = demoTxState.(users) /\ st'.(items) = demoTxState.(items) /\
    st'.(purchases) = demoTxState.(purchases) /\
    st'.(redeemCodes) = demoTxState.(redeemCodes) /\ st'.(tickets) = demoTxState.(tickets).
Proof. apply (updateTransactionStatus_other demoTxStorage demoTxState "T1" demoTx); witness_premise. Defined.

Lemma updateTransactionStatus_approve_twice_witness :
  exists ls'' st'', (updateTransactionStatus "T1" TransactionStatus.APPROVED;;
                     updateTransactionStatus "T1" TransactionStatus.APPROVED) demoTxStorage = (inr tt, ls'') /\
    holds ls'' st'' /\ exists u'', find (userById "U") st''.(users) = Some u'' /\
      u''.(User.credits) = (demoUser.(User.credits) + 2 * demoTx.(Transaction.amount))%Z.
Proof. apply (updateTransactionStatus_approve_twice demoTxStorage demoTxState "T1" demoTx demoUser); witness_premise. Defined.

Lemma updateTransactionStatus_missing_witness :
  updateTransactionStatus "T9" TransactionStatus.APPROVED demoTxStorage = (inr tt, saved demoTxStorage demoTxState).
Proof. apply updateTransactionStatus_missing; witness_premise. Defined.

