(* ===== verification/RedeemCodes.v ===== *)
(** * Redeem codes: [getRedeemCodes], [addRedeemCode], [redeem]

    db.ts lines 143-162.  [redeem] looks the user up, then the first code
    record with the string that is not used yet ([codeMatches]); it marks
    that record used and credits its amount.  A record once used is never
    matched again, but nothing makes code strings unique: each unused
    record with the string can be redeemed once, so the number of
    successful redemptions of a string is the number of its unused
    records ([redeem_exactly_unused]). *)

From stdpp Require Import gmap.
From S2P Require Import Prelude Types Storage StateStore Users.

(** [c => c.code === codeStr && !c.isUsed] *)
Definition codeMatches (codeStr : string) (c : RedeemCode) : bool :=
  (c.(RedeemCode.code) === codeStr) && negb c.(RedeemCode.isUsed).

(** [code.isUsed = true] *)
Definition markUsed (c : RedeemCode) : RedeemCode :=
  RedeemCode.mkRedeemCode c.(RedeemCode.code) c.(RedeemCode.amount) true.

(** [{ success: boolean, amount?: number, error?: string }] *)
Module RedeemResult.
Record RedeemResult := mkRedeemResult { success : bool; amount : option Z; error : option string }.
End RedeemResult.
Abbreviation RedeemResult := RedeemResult.RedeemResult.

Definition redeemOk (a : Z) : RedeemResult := RedeemResult.mkRedeemResult true (Some a) None.
Definition redeemError (e : string) : RedeemResult := RedeemResult.mkRedeemResult false None (Some e).

Section Ops.
Context `{!Storage LS V} `{!Codec V}.

Definition getRedeemCodes : DB LS (list RedeemCode) :=
  state ← getInitialState; mret state.(redeemCodes).

Definition addRedeemCode (code : RedeemCode) : DB LS unit :=
  state ← getInitialState;
  saveState (set_redeemCodes (push code) state).

Definition redeem (userId codeStr : string) : DB LS RedeemResult :=
  state ← getInitialState;
  match find (userById userId) state.(users) with
  | None => mret (redeemError "User not found")
  | Some _ =>
      match find (codeMatches codeStr) state.(redeemCodes) with
      | None => mret (redeemError "Invalid or already used code")
      | Some code =>
          let state := set_redeemCodes (find_update (codeMatches codeStr) markUsed) state in
          let state := set_users (find_update (userById userId) (withCredits code.(RedeemCode.amount))) state in
          saveState state;;
          mret (redeemOk code.(RedeemCode.amount))
      end
  end.

(** [n] consecutive calls [redeem(userId, codeStr)], their results in order. *)
Fixpoint redeemN (n : nat) (userId codeStr : string) : DB LS (list RedeemResult) :=
  match n with
  | O => mret []
  | S n' => r ← redeem userId codeStr; rs ← redeemN n' userId codeStr; mret (r :: rs)
  end.
End Ops.

(** The unused records carrying the string [codeStr], in order. *)
Definition unusedCodes (codeStr : string) (codes : list RedeemCode) : list RedeemCode :=
  List.filter (codeMatches codeStr) codes.

Definition demoWelcome : RedeemCode := RedeemCode.mkRedeemCode "WELCOME10" 10 false.
Definition demoCodeStorage : gmap string DBState :=
  <[STORAGE_KEY := set_redeemCodes (fun _ => [demoWelcome]) demoState]> ∅.
(** The same string in two records, both unused. *)
Definition demoDuplicateStorage : gmap string DBState :=
  <[STORAGE_KEY := set_redeemCodes (fun _ => [demoWelcome; demoWelcome]) demoState]> ∅.

(** ** Properties *)

(** Marking the first unused record used removes exactly it from the
    unused records of the string. *)
Lemma unusedCodes_markUsed s codes c rest :
  unusedCodes s codes = c :: rest ->
  unusedCodes s (find_update (codeMatches s) markUsed codes) = rest.
Proof.
  unfold unusedCodes. intros Hf.
  pose proof (find_filter_cons _ _ _ _ Hf) as Hfind.
  destruct (find_update_split (codeMatches s) markUsed codes c Hfind) as (l1 & l2 & Hsplit & Hl1 & ->).
  rewrite Hsplit, List.filter_app, filter_Forall_false in Hf by done. simpl in Hf.
  rewrite (find_true _ _ _ Hfind) in Hf. injection Hf as <-.
  rewrite List.filter_app, filter_Forall_false by done. simpl.
  unfold codeMatches at 1. simpl. by rewrite andb_false_r.
Qed.

Section Props.
Context `{!Storage LS V} `{!Codec V}.

(** C26: an unknown user cannot redeem; nothing is written. *)
Theorem redeem_user_not_found (ls : LS) st uid s :
  holds ls st -> find (userById uid) st.(users) = None ->
  redeem uid s ls = (inr (redeemError "User not found"), ls).
Proof. intros Hst Hu. unfold redeem. load_with Hst. by rewrite Hu. Qed.

Lemma redeem_used_fails_step (ls : LS) st uid s u :
  holds ls st -> find (userById uid) st.(users) = Some u ->
  Forall (fun c => c.(RedeemCode.code) = s -> c.(RedeemCode.isUsed) = true) st.(redeemCodes) ->
  redeem uid s ls = (inr (redeemError "Invalid or already used code"), ls).
Proof.
  intros Hst Hu Hused. unfold redeem. load_with Hst. rewrite Hu.
  rewrite (find_filter_nil (codeMatches s)); [done|].
  apply filter_Forall_false. eapply Forall_impl; [exact Hused|]. intros c Hc.
  unfold codeMatches. destruct (bool_decide_reflect (RedeemCode.code c = s)) as [He|]; [|done].
  by rewrite (Hc He).
Qed.

(** C9: a string none of whose records is unused (every record with it is
    marked used, or there is none) is refused, and nothing is written:
    the credits never change. *)
Theorem redeem_used_fails (ls : LS) st uid s u :
  holds ls st -> find (userById uid) st.(users) = Some u ->
  Forall (fun c => c.(RedeemCode.code) = s -> c.(RedeemCode.isUsed) = true) st.(redeemCodes) ->
  redeem uid s ls = (inr (redeemError "Invalid or already used code"), ls).
Proof. apply redeem_used_fails_step. Qed.

Context `{!StorageLaws LS V} `{!CodecLaws V}.

Lemma redeem_success_step (ls : LS) st uid s u c rest :
  holds ls st -> find (userById uid) st.(users) = Some u ->
  unusedCodes s st.(redeemCodes) = c :: rest ->
  exists st', redeem uid s ls = (inr (redeemOk c.(RedeemCode.amount)), saved ls st') /\
    holds (saved ls st') st' /\
    find (userById uid) st'.(users) = Some (withCredits c.(RedeemCode.amount) u) /\
    unusedCodes s st'.(redeemCodes) = rest /\
    length st'.(redeemCodes) = length st.(redeemCodes) /\
    st'.(items) = st.(items) /\ st'.(purchases) = st.(purchases) /\
    st'.(transactions) = st.(transactions) /\ st'.(tickets) = st.(tickets).
Proof.
  intros Hst Hu Hc. eexists. split.
  { unfold redeem. load_with Hst. rewrite Hu, (find_filter_cons _ _ _ _ Hc). reflexivity. }
  split; [apply holds_saved|]. simpl.
  split; [by apply find_credit|]. split; [by eapply unusedCodes_markUsed|].
  split; [apply length_find_update|]. done.
Qed.

(** C8: redeeming credits the amount of the first unused record with the
    string to the user, marks exactly that record used and changes no
    other collection. *)
Theorem redeem_success (ls : LS) st uid s u c rest :
  holds ls st -> find (userById uid) st.(users) = Some u ->
  unusedCodes s st.(redeemCodes) = c :: rest ->
  exists st', redeem uid s ls = (inr (redeemOk c.(RedeemCode.amount)), saved ls st') /\
    holds (saved ls st') st' /\
    find (userById uid) st'.(users) = Some (withCredits c.(RedeemCode.amount) u) /\
    unusedCodes s st'.(redeemCodes) = rest /\
    length st'.(redeemCodes) = length st.(redeemCodes) /\
    st'.(items) = st.(items) /\ st'.(purchases) = st.(purchases) /\
    st'.(transactions) = st.(transactions) /\ st'.(tickets) = st.(tickets).
Proof. apply redeem_success_step. Qed.

(** C10: a string is redeemable exactly as many times as it has unused
    records: [n + 1] calls by an existing user, where [n] is that number,
    succeed [n] times, crediting the records' amounts in list order, and
    then fail with 'Invalid or already used code'. *)
Theorem redeem_exactly_unused n (ls : LS) st uid s u :
  holds ls st -> find (userById uid) st.(users) = Some u ->
  length (unusedCodes s st.(redeemCodes)) = n ->
  fst (redeemN (S n) uid s ls) =
    inr (map (fun c => redeemOk c.(RedeemCode.amount)) (unusedCodes s st.(redeemCodes)) ++
         [redeemError "Invalid or already used code"]).
Proof.
  revert ls st u. induction n as [|n IH]; intros ls st u Hst Hu Hn.
  - apply nil_length_inv in Hn.
    assert (Forall (fun c => c.(RedeemCode.code) = s -> c.(RedeemCode.isUsed) = true)
              st.(redeemCodes)) as Hused.
    { apply Forall_forall. intros c Hin Hcode.
      destruct (RedeemCode.isUsed c) eqn:E; [done|]. exfalso.
      assert (In c (unusedCodes s st.(redeemCodes))) as Hc; [|by rewrite Hn in Hc].
      apply filter_In. split; [by apply list_elem_of_In|]. unfold codeMatches. rewrite E. by js_decide. }
    rewrite Hn. cbn [redeemN].
    by rewrite (bind_step _ _ _ _ _ (redeem_used_fails_step ls st uid s u Hst Hu Hused)).
  - destruct (unusedCodes s st.(redeemCodes)) as [|c rest] eqn:Hc; [discriminate|].
    destruct (redeem_success_step ls st uid s u c rest Hst Hu Hc) as (st' & Hrun & Hst' & Hu' & Hrest & _).
    cbn [redeemN]. rewrite (bind_step _ _ _ _ _ Hrun).
    assert (fst (redeemN (S n) uid s (saved ls st')) =
      inr (map (fun c => redeemOk c.(RedeemCode.amount)) rest ++ [redeemError "Invalid or already used code"])) as IH'.
    { rewrite <- Hrest. apply (IH _ _ _ Hst' Hu'). rewrite Hrest. simpl in Hn. lia. }
    destruct (redeemN (S n) uid s (saved ls st')) as [res ls''] eqn:E.
    simpl in IH'. subst res. by rewrite (bind_step _ _ _ _ _ E).
Qed.
End Props.

(** ** Witnesses *)

Lemma redeem_user_not_found_witness :
  redeem "X" "WELCOME10" demoCodeStorage = (inr (redeemError "User not found"), demoCodeStorage).
Proof. apply (redeem_user_not_found _ (set_redeemCodes (fun _ => [demoWelcome]) demoState)); witness_premise. Defined.

Lemma redeem_used_fails_witness :
  redeem "U" "SPRING5" demoCodeStorage = (inr (redeemError "Invalid or already used code"), demoCodeStorage).
Proof.
  apply (redeem_used_fails _ (set_redeemCodes (fun _ => [demoWelcome]) demoState) "U" "SPRING5" demoUser);
    [witness_premise|witness_premise|].
  repeat constructor. discriminate.
Defined.

Lemma redeem_success_witness :
  exists st', redeem "U" "WELCOME10" demoCodeStorage = (inr (redeemOk 10), saved demoCodeStorage st') /\
    find (userById "U") st'.(users) = Some (User.mkUser "U" UserRole.USER 110) /\
    unusedCodes "WELCOME10" st'.(redeemCodes) = [].
Proof.
  assert (H1 : holds demoCodeStorage (set_redeemCodes (fun _ => [demoWelcome]) demoState)) by witness_premise.
  assert (H2 : find (userById "U") (set_redeemCodes (fun _ => [demoWelcome]) demoState).(users) = Some demoUser)
    by witness_premise.
  assert (H3 : unusedCodes "WELCOME10" (set_redeemCodes (fun _ => [demoWelcome]) demoState).(redeemCodes) = [demoWelcome])
    by witness_premise.
  destruct (redeem_success _ _ _ _ _ _ _ H1 H2 H3) as (st' & Hrun & _ & Hu & Hrest & _).
  exists st'. split; [exact Hrun|]. split; [exact Hu|exact Hrest].
Defined.

(** The spec's example: [WELCOME10] redeems once for 10, then is refused. *)
Lemma redeem_exactly_unused_witness :
  fst (redeemN 2 "U" "WELCOME10" demoCodeStorage) =
    inr (map (fun c => redeemOk c.(RedeemCode.amount)) [demoWelcome] ++ [redeemError "Invalid or already used code"]).
Proof.
  exact (redeem_exactly_unused 1 demoCodeStorage (set_redeemCodes (fun _ => [demoWelcome]) demoState)
    "U" "WELCOME10" demoUser ltac:(witness_premise) ltac:(witness_premise) ltac:(witness_premise)).
Defined.

(** code strings are not unique: the same string stored in two unused
    records is redeemed twice, for its amount each time. *)
Example redeem_duplicate_string_twice :
  fst (redeemN 3 "U" "WELCOME10" demoDuplicateStorage) =
    inr [redeemOk 10; redeemOk 10; redeemError "Invalid or already used code"].
Proof. vm_compute. reflexivity. Qed.

