(* ===== verification/Tickets.v ===== *)
(** * Tickets: [getTickets], [createTicket], [addTicketMessage], [closeTicket]

    db.ts lines 164-188.  [addTicketMessage] appends the caller's message to
    the first ticket with the id and stamps [lastUpdated] with
    [Date.now()]; [closeTicket] sets the status to CLOSED and stamps it
    too.  Both write the document even when no ticket has the id.  The
    spec's invariant "lastUpdated is at least the timestamp of the latest
    message" is [ticketFresh]: it holds after [addTicketMessage] only when
    the caller's message is not stamped later than the clock
    ([ticketFresh_addTicketMessage]); a message from the future breaks it
    ([addTicketMessage_future_message]). *)

From stdpp Require Import gmap.
From S2P Require Import Prelude Types Storage StateStore.

(** [t => t.id === ticketId] *)
Definition ticketById (ticketId : string) (t : Ticket) : bool := t.(Ticket.id) === ticketId.

(** [ticket.messages.push(message); ticket.lastUpdated = Date.now()] *)
Definition pushMessage (message : TicketMessage) (now : Z) (t : Ticket) : Ticket :=
  Ticket.mkTicket t.(Ticket.id) (push message t.(Ticket.messages)) t.(Ticket.status) now.

(** [ticket.status = TicketStatus.CLOSED; ticket.lastUpdated = Date.now()] *)
Definition closeAt (now : Z) (t : Ticket) : Ticket :=
  Ticket.mkTicket t.(Ticket.id) t.(Ticket.messages) TicketStatus.CLOSED now.

Section Ops.
Context `{!Storage LS V} `{!Codec V}.

Definition getTickets : DB LS (list Ticket) :=
  state ← getInitialState; mret state.(tickets).

Definition createTicket (ticket : Ticket) : DB LS unit :=
  state ← getInitialState;
  saveState (set_tickets (push ticket) state).

Definition addTicketMessage (env : Env) (ticketId : string) (message : TicketMessage) : DB LS unit :=
  state ← getInitialState;
  saveState (set_tickets (find_update (ticketById ticketId) (pushMessage message env.(now))) state).

Definition closeTicket (env : Env) (ticketId : string) : DB LS unit :=
  state ← getInitialState;
  saveState (set_tickets (find_update (ticketById ticketId) (closeAt env.(now))) state).
End Ops.

(** The spec's invariant: [lastUpdated] is at least the timestamp of every
    message of the ticket. *)
Definition ticketFresh (t : Ticket) : Prop :=
  Forall (fun m => (m.(TicketMessage.timestamp) <= t.(Ticket.lastUpdated))%Z) t.(Ticket.messages).

#[export] Instance ticketFresh_dec t : Decision (ticketFresh t).
Proof. unfold ticketFresh. apply _. Defined.

Definition demoTicket : Ticket := Ticket.mkTicket "K" [] TicketStatus.OPEN 1000.
Definition demoTicketState : DBState := set_tickets (fun _ => [demoTicket]) demoState.
Definition demoTicketStorage : gmap string DBState := <[STORAGE_KEY := demoTicketState]> ∅.
Definition demoMessage : TicketMessage := TicketMessage.mkTicketMessage "U" "Where is my key?" 1500.
(** A message whose timestamp is later than the clock reading. *)
Definition demoFutureMessage : TicketMessage := TicketMessage.mkTicketMessage "U" "Hello" 9000.
Definition demoClock : Env := mkEnv 2000 "0.5".

(** ** Properties *)

Lemma find_ticket_update id f ts t :
  find (ticketById id) ts = Some t -> (forall t', (f t').(Ticket.id) = t'.(Ticket.id)) ->
  find (ticketById id) (find_update (ticketById id) f ts) = Some (f t).
Proof.
  intros Ht Hf. apply find_find_update_same; [done|].
  unfold ticketById. rewrite Hf. exact (find_true _ _ _ Ht).
Qed.

Lemma ticketFresh_addTicketMessage_step t message now :
  ticketFresh t -> (t.(Ticket.lastUpdated) <= now)%Z ->
  (message.(TicketMessage.timestamp) <= now)%Z ->
  ticketFresh (pushMessage message now t).
Proof.
  unfold ticketFresh, pushMessage, push. simpl. intros Ht Hle Hm.
  apply Forall_app. split; [|by constructor].
  eapply Forall_impl; [exact Ht|]. simpl. lia.
Qed.

(** the spec's [lastUpdated] invariant survives the update
    [addTicketMessage] applies, provided the clock has not gone back
    since the ticket's last stamp and the message is not stamped later
    than the clock. *)
Theorem ticketFresh_addTicketMessage t message now :
  ticketFresh t -> (t.(Ticket.lastUpdated) <= now)%Z ->
  (message.(TicketMessage.timestamp) <= now)%Z ->
  ticketFresh (pushMessage message now t).
Proof. apply ticketFresh_addTicketMessage_step. Qed.

Lemma ticketFresh_closeAt_step t now :
  ticketFresh t -> (t.(Ticket.lastUpdated) <= now)%Z -> ticketFresh (closeAt now t).
Proof.
  unfold ticketFresh, closeAt. simpl. intros Ht Hle.
  eapply Forall_impl; [exact Ht|]. simpl. lia.
Qed.

(** The invariant also survives the update [closeTicket] applies, provided the
    clock has not gone back since the ticket's last stamp. *)
Theorem ticketFresh_closeAt t now :
  ticketFresh t -> (t.(Ticket.lastUpdated) <= now)%Z -> ticketFresh (closeAt now t).
Proof. apply ticketFresh_closeAt_step. Qed.

Section Props.
Context `{!Storage LS V} `{!Codec V} `{!StorageLaws LS V} `{!CodecLaws V}.

Lemma addTicketMessage_found_step (ls : LS) st env id message t :
  holds ls st -> find (ticketById id) st.(tickets) = Some t ->
  exists st', addTicketMessage env id message ls = (inr tt, saved ls st') /\
    holds (saved ls st') st' /\
    find (ticketById id) st'.(tickets) =
      Some (Ticket.mkTicket t.(Ticket.id) (t.(Ticket.messages) ++ [message]) t.(Ticket.status) env.(now)) /\
    length st'.(tickets) = length st.(tickets) /\
    st'.(users) = st.(users) /\ st'.(items) = st.(items) /\ st'.(purchases) = st.(purchases) /\
    st'.(transactions) = st.(transactions) /\ st'.(redeemCodes) = st.(redeemCodes).
Proof.
  intros Hst Ht. eexists. split; [unfold addTicketMessage; by load_with Hst|].
  split; [apply holds_saved|]. simpl.
  split; [by apply (find_ticket_update id (pushMessage message env.(now)) _ t)|].
  split; [apply length_find_update|]. done.
Qed.

(** C18: [addTicketMessage] appends the message to the thread of the first
    ticket with the id, stamps its [lastUpdated] with the clock, keeps its
    status, and changes no other collection. *)
Theorem addTicketMessage_found (ls : LS) st env id message t :
  holds ls st -> find (ticketById id) st.(tickets) = Some t ->
  exists st', addTicketMessage env id message ls = (inr tt, saved ls st') /\
    holds (saved ls st') st' /\
    find (ticketById id) st'.(tickets) =
      Some (Ticket.mkTicket t.(Ticket.id) (t.(Ticket.messages) ++ [message]) t.(Ticket.status) env.(now)) /\
    length st'.(tickets) = length st.(tickets) /\
    st'.(users) = st.(users) /\ st'.(items) = st.(items) /\ st'.(purchases) = st.(purchases) /\
    st'.(transactions) = st.(transactions) /\ st'.(redeemCodes) = st.(redeemCodes).
Proof. apply addTicketMessage_found_step. Qed.

(** C19: [closeTicket] sets the status of the first ticket with the id to
    CLOSED and stamps it with the clock, keeping its messages. *)
Theorem closeTicket_found (ls : LS) st env id t :
  holds ls st -> find (ticketById id) st.(tickets) = Some t ->
  exists st', closeTicket env id ls = (inr tt, saved ls st') /\
    holds (saved ls st') st' /\
    find (ticketById id) st'.(tickets) =
      Some (Ticket.mkTicket t.(Ticket.id) t.(Ticket.messages) TicketStatus.CLOSED env.(now)) /\
    length st'.(tickets) = length st.(tickets) /\
    st'.(users) = st.(users) /\ st'.(items) = st.(items) /\ st'.(purchases) = st.(purchases) /\
    st'.(transactions) = st.(transactions) /\ st'.(redeemCodes) = st.(redeemCodes).
Proof.
  intros Hst Ht. eexists. split; [unfold closeTicket; by load_with Hst|].
  split; [apply holds_saved|]. simpl.
  split; [by apply (find_ticket_update id (closeAt env.(now)) _ t)|].
  split; [apply length_find_update|]. done.
Qed.

(** C20: for an unknown ticket id, both [addTicketMessage] and
    [closeTicket] write the unchanged document back. *)
Theorem ticket_ops_missing (ls : LS) st env id message :
  holds ls st -> find (ticketById id) st.(tickets) = None ->
  addTicketMessage env id message ls = (inr tt, saved ls st) /\
  closeTicket env id ls = (inr tt, saved ls st).
Proof.
  intros Hst Hnone. unfold addTicketMessage, closeTicket. load_with Hst. load_with Hst.
  unfold saveState, set_tickets. rewrite !find_update_None by done. by destruct st.
Qed.

(** C28: the spec's [lastUpdated] invariant is not enforced by the code:
    for every ticket and every message stamped later than the clock,
    [addTicketMessage] stores the ticket with [lastUpdated] below the
    message's timestamp. *)
Theorem addTicketMessage_future_message (ls : LS) st env id message t :
  holds ls st -> find (ticketById id) st.(tickets) = Some t ->
  (env.(now) < message.(TicketMessage.timestamp))%Z ->
  exists st' t', addTicketMessage env id message ls = (inr tt, saved ls st') /\
    holds (saved ls st') st' /\ find (ticketById id) st'.(tickets) = Some t' /\ ~ ticketFresh t'.
Proof.
  intros Hst Ht Hlt. destruct (addTicketMessage_found_step ls st env id message t Hst Ht)
    as (st' & Hrun & Hst' & Ht' & _). eexists st', _. split; [exact Hrun|]. split; [exact Hst'|].
  split; [exact Ht'|]. unfold ticketFresh. simpl. rewrite Forall_app. intros [_ Hm].
  apply Forall_cons_1 in Hm as [Hm _]. lia.
Qed.
End Props.



(** ** Witnesses *)

Lemma ticketFresh_addTicketMessage_witness :
  ticketFresh (pushMessage demoMessage 2000 demoTicket).
Proof. apply ticketFresh_addTicketMessage; [by constructor|witness_premise|witness_premise]. Defined.

Lemma ticketFresh_closeAt_witness : ticketFresh (closeAt 2000 (pushMessage demoMessage 2000 demoTicket)).
Proof.
  apply ticketFresh_closeAt; [|witness_premise].
  unfold ticketFresh. simpl. repeat constructor. simpl. lia.
Defined.

Lemma addTicketMessage_found_witness :
  exists st', addTicketMessage demoClock "K" demoMessage demoTicketStorage = (inr tt, saved demoTicketStorage st') /\
    find (ticketById "K") st'.(tickets) = Some (Ticket.mkTicket "K" [demoMessage] TicketStatus.OPEN 2000).
Proof.
  assert (H1 : holds demoTicketStorage demoTicketState) by witness_premise.
  assert (H2 : find (ticketById "K") demoTicketState.(tickets) = Some demoTicket) by witness_premise.
  destruct (addTicketMessage_found _ _ demoClock _ demoMessage _ H1 H2) as (st' & Hrun & _ & Ht & _).
  exists st'. split; [exact Hrun|exact Ht].
Defined.

Lemma closeTicket_found_witness :
  exists st', closeTicket demoClock "K" demoTicketStorage = (inr tt, saved demoTicketStorage st') /\
    find (ticketById "K") st'.(tickets) = Some (Ticket.mkTicket "K" [] TicketStatus.CLOSED 2000).
Proof.
  assert (H1 : holds demoTicketStorage demoTicketState) by witness_premise.
  assert (H2 : find (ticketById "K") demoTicketState.(tickets) = Some demoTicket) by witness_premise.
  destruct (closeTicket_found _ _ demoClock _ _ H1 H2) as (st' & Hrun & _ & Ht & _).
  exists st'. split; [exact Hrun|exact Ht].
Defined.

Lemma ticket_ops_missing_witness :
  addTicketMessage demoClock "Q" demoMessage demoTicketStorage = (inr tt, saved demoTicketStorage demoTicketState) /\
  closeTicket demoClock "Q" demoTicketStorage = (inr tt, saved demoTicketStorage demoTicketState).
Proof. apply ticket_ops_missing; witness_premise. Defined.

Lemma addTicketMessage_future_message_witness :
  exists st' t', addTicketMessage demoClock "K" demoFutureMessage demoTicketStorage =
      (inr tt, saved demoTicketStorage st') /\
    holds (saved demoTicketStorage st') st' /\ find (ticketById "K") st'.(tickets) = Some t' /\
    ~ ticketFresh t'.
Proof.
  apply (addTicketMessage_future_message demoTicketStorage demoTicketState demoClock "K"
    demoFutureMessage demoTicket); witness_premise.
Defined.
