(* ===== verification/Facade.v ===== *)
(** * Facade: the exported object [DB] as one state machine

    db.ts lines 36-188.  [Call] names every method of [DB] with its
    arguments and [dispatch] runs it; [Response] is what the method
    returns.  The theorems of this file hold over every sequence of calls:
    - a storage reached from the first run always holds a document
      ([reachable_holds]): no call ever meets a [SyntaxError];
    - the purchase log is append-only and a used redeem record stays as it
      is, at its index, whatever the call;
    - under a clock that never goes back and callers that stamp messages
      and tickets no later than the clock, every stored ticket satisfies
      the spec's [lastUpdated] invariant;
    - the behaviour of [DB] does not depend on the storage implementation
      ([runCalls_storage_independent]): two lawful storages that hold the
      same document answer every call alike and keep holding the same
      document;
    - [isDelivered] is no latch: an [updateItem] that re-saves a sold unit
      as undelivered lets the next purchase deliver it a second time
      ([updateItem_redelivers_unit]). *)

From stdpp Require Import gmap.
From S2P Require Import Prelude Types Storage StateStore Users Purchases.
From S2P Require Import Items Transactions RedeemCodes Tickets.

Inductive Call :=
  | GetUsers | AddUser (user : User) | VerifyUser (token : string)
  | UpdateUserCredits (userId : string) (amount : Z)
  | GetItems | AddItem (item : Item) | UpdateItem (item : Item) | DeleteItem (itemId : string)
  | GetPurchases | AddPurchase (purchase : Purchase) | ProcessPurchase (userId itemId : string)
  | GetTransactions | AddTransaction (transaction : Transaction)
  | UpdateTransactionStatus (id : string) (status : TransactionStatus)
  | GetRedeemCodes | AddRedeemCode (code : RedeemCode) | Redeem (userId codeStr : string)
  | GetTickets | CreateTicket (ticket : Ticket)
  | AddTicketMessage (ticketId : string) (message : TicketMessage) | CloseTicket (ticketId : string).

Inductive Response :=
  | RUnit | RBool (b : bool)
  | RUsers (l : list User) | RItems (l : list Item) | RPurchases (l : list Purchase)
  | RTransactions (l : list Transaction) | RRedeemCodes (l : list RedeemCode) | RTickets (l : list Ticket)
  | RVerify (r : VerifyResult) | RPurchase (r : PurchaseResult) | RRedeem (r : RedeemResult).

Section Dispatch.
Context `{!Storage LS V} `{!Codec V}.

Definition dispatch (env : Env) (c : Call) : DB LS Response :=
  match c with
  | GetUsers => l ← getUsers; mret (RUsers l)
  | AddUser user => addUser user;; mret RUnit
  | VerifyUser token => mret (RVerify (verifyUser token))
  | UpdateUserCredits userId amount => updateUserCredits userId amount;; mret RUnit
  | GetItems => l ← getItems; mret (RItems l)
  | AddItem item => addItem item;; mret RUnit
  | UpdateItem item => b ← updateItem item; mret (RBool b)
  | DeleteItem itemId => deleteItem itemId;; mret RUnit
  | GetPurchases => l ← getPurchases; mret (RPurchases l)
  | AddPurchase purchase => addPurchase purchase;; mret RUnit
  | ProcessPurchase userId itemId => r ← processPurchase env userId itemId; mret (RPurchase r)
  | GetTransactions => l ← getTransactions; mret (RTransactions l)
  | AddTransaction t => addTransaction t;; mret RUnit
  | UpdateTransactionStatus id status => updateTransactionStatus id status;; mret RUnit
  | GetRedeemCodes => l ← getRedeemCodes; mret (RRedeemCodes l)
  | AddRedeemCode code => addRedeemCode code;; mret RUnit
  | Redeem userId codeStr => r ← redeem userId codeStr; mret (RRedeem r)
  | GetTickets => l ← getTickets; mret (RTickets l)
  | CreateTicket ticket => createTicket ticket;; mret RUnit
  | AddTicketMessage ticketId message => addTicketMessage env ticketId message;; mret RUnit
  | CloseTicket ticketId => closeTicket env ticketId;; mret RUnit
  end.

(** A trace of calls, each with its clock reading; the responses in order. *)
Fixpoint runCalls (calls : list (Env * Call)) : DB LS (list Response) :=
  match calls with
  | [] => mret []
  | (env, c) :: calls' => r ← dispatch env c; rs ← runCalls calls'; mret (r :: rs)
  end.

(** The storages a run of calls reaches from [ls0]. *)
Inductive reachable (ls0 : LS) : LS -> Prop :=
  | reachable_start : reachable ls0 ls0
  | reachable_step ls env c : reachable ls0 ls -> reachable ls0 (snd (dispatch env c ls)).
(** What the callers of the ticket methods must guarantee: a created
    ticket satisfies the invariant and a message is not stamped later than
    the clock. *)
Definition wellStamped (now : Z) (c : Call) : Prop :=
  match c with
  | CreateTicket t => ticketFresh t /\ (t.(Ticket.lastUpdated) <= now)%Z
  | AddTicketMessage _ m => (m.(TicketMessage.timestamp) <= now)%Z
  | _ => True
  end.

(** Runs under a clock that never goes back: [clockedRun ls0 t0 t ls] when
    [ls] is reached from [ls0] by well-stamped calls, [t] being the last
    clock reading. *)
Inductive clockedRun (ls0 : LS) (t0 : Z) : Z -> LS -> Prop :=
  | clocked_start : clockedRun ls0 t0 t0 ls0
  | clocked_step t ls env c :
      clockedRun ls0 t0 t ls -> (t <= env.(now))%Z -> wellStamped env.(now) c ->
      clockedRun ls0 t0 env.(now) (snd (dispatch env c ls)).
End Dispatch.

(** The spec's first invariant, with the amounts that feed credits. *)
Definition nonNegative (st : DBState) : Prop :=
  Forall (fun u => (0 <= u.(User.credits))%Z) st.(users) /\
  Forall (fun t => (0 <= t.(Transaction.amount))%Z) st.(transactions) /\
  Forall (fun c => (0 <= c.(RedeemCode.amount))%Z) st.(redeemCodes).

(** Calls that bring no negative amount in. *)
Definition fundedCall (c : Call) : Prop :=
  match c with
  | AddUser u => (0 <= u.(User.credits))%Z
  | UpdateUserCredits _ a => (0 <= a)%Z
  | AddTransaction t => (0 <= t.(Transaction.amount))%Z
  | AddRedeemCode code => (0 <= code.(RedeemCode.amount))%Z
  | _ => True
  end.

(** Calls that store only items whose counter matches their stock. *)
Definition wellCounted (c : Call) : Prop :=
  match c with
  | AddItem it | UpdateItem it => countConsistent it
  | _ => True
  end.

(** A demo trace, and a second storage holding the demo document beside
    an unrelated key. *)
Definition demoCalls : list (Env * Call) :=
  [(demoEnv, ProcessPurchase "U" "I"); (demoEnv, AddRedeemCode demoWelcome);
   (demoEnv, Redeem "U" "WELCOME10"); (demoEnv, GetUsers)].
(** An admin re-saves the SEQUENTIAL item with its original, undelivered
    stock between two purchases. *)
Definition demoRestock : Item :=
  Item.mkItem "S" "Game keys" 10 ItemType.SEQUENTIAL None
    (Some [SequentialItem.mkSequentialItem "K1" false]) 0.
(** The demo document after ["K1"] was sold to ["U"]. *)
Definition demoSoldK1 : Purchase := Purchase.mkPurchase "82mvyr" "U" "S" "Game keys" "K1" 1700000000000 10.
Definition demoSoldItem : Item :=
  Item.mkItem "S" "Game keys" 10 ItemType.SEQUENTIAL None
    (Some [SequentialItem.mkSequentialItem "K1" true; SequentialItem.mkSequentialItem "K2" false]) 1.
Definition demoAfterSaleState : DBState :=
  mkDBState [debit 10 demoUser; demoPoorUser] [demoInstant; demoSoldItem; demoSoldOut] [demoSoldK1] [] [] [].
Definition demoAfterSale : gmap string DBState := <[STORAGE_KEY := demoAfterSaleState]> ∅.
Definition demoStorage2 : gmap string DBState := <["theme" := initialState]> demoStorage.
Definition firstRun : gmap string DBState := ∅.

(** Every stored ticket satisfies the spec's invariant and was stamped no
    later than [t]. *)
Definition ticketsFreshBy (t : Z) (st : DBState) : Prop :=
  Forall (fun k => ticketFresh k /\ (k.(Ticket.lastUpdated) <= t)%Z) st.(tickets).

(** Purchase records of the unit [c] of the item [iid]. *)
Definition soldUnit (iid c : string) (p : Purchase) : bool :=
  bool_decide (p.(Purchase.itemId) = iid /\ p.(Purchase.contentDelivered) = c).

(** Unfold a call of [dispatch] down to its reads and writes of the
    document, once the storage is known to hold [st]. *)
Ltac unfold_methods :=
  unfold getUsers, addUser, updateUserCredits, getItems, addItem, updateItem, deleteItem,
    getPurchases, addPurchase, processPurchase, getTransactions, addTransaction,
    updateTransactionStatus, getRedeemCodes, addRedeemCode, redeem, getTickets,
    createTicket, addTicketMessage, closeTicket.

Ltac run_dispatch Hst :=
  cbn [dispatch]; unfold_methods; unfold mbind, mret, DB_bind, DB_ret, saveState;
  cbn beta; rewrite ?(getInitialState_holds _ _ Hst); cbn beta iota zeta.

Section Shape.
Context `{!Storage LS V} `{!Codec V}.

(** Every call from a storage that holds a document answers without
    throwing, and either writes nothing or writes one whole document. *)
Lemma dispatch_shape env c (ls : LS) st :
  holds ls st ->
  exists r, dispatch env c ls = (inr r, ls) \/ exists st', dispatch env c ls = (inr r, saved ls st').
Proof.
  intros Hst. destruct c; run_dispatch Hst; repeat (case_match; simplify_eq/=); eexists;
    first [left; reflexivity | right; eexists; reflexivity].
Qed.
End Shape.

(** After [run_dispatch] and the case analysis: name the document the
    call leaves behind. *)
Ltac close_doc Hst :=
  eexists; split; [first [apply holds_saved | exact Hst] |].

Section Invariants.
Context `{!Storage LS V} `{!Codec V} `{!StorageLaws LS V} `{!CodecLaws V}.

(** from a storage that holds a document (the first run's empty
    storage included, [holds_fresh]), every storage any sequence of calls
    reaches holds a document: no method ever meets a [SyntaxError]. *)
Theorem reachable_holds (ls0 ls : LS) st0 :
  holds ls0 st0 -> reachable ls0 ls -> exists st, holds ls st.
Proof.
  intros H0 Hr. induction Hr as [|ls env c _ [st Hst]]; [by exists st0|].
  destruct (dispatch_shape env c ls st Hst) as (r & [-> | (st' & ->)]); simpl; eauto with js.
Qed.

(** C6: the purchase log is append-only: after any call, the loaded log
    extends the log before the call. *)
Theorem dispatch_purchases_prefix env c (ls : LS) st :
  holds ls st ->
  exists st', holds (snd (dispatch env c ls)) st' /\ st.(purchases) `prefix_of` st'.(purchases).
Proof.
  intros Hst. destruct c; run_dispatch Hst; repeat (case_match; simplify_eq/=);
    close_doc Hst; simpl; first [done | by apply prefix_app_r].
Qed.

(** a used redeem record is never changed or moved by any call. *)
Theorem dispatch_used_codes_stay env c (ls : LS) st :
  holds ls st ->
  exists st', holds (snd (dispatch env c ls)) st' /\
    forall i code, st.(redeemCodes) !! i = Some code -> code.(RedeemCode.isUsed) = true ->
      st'.(redeemCodes) !! i = Some code.
Proof.
  intros Hst. destruct c; run_dispatch Hst; repeat (case_match; simplify_eq/=);
    close_doc Hst; simpl; intros n rc Hn Hu; try done.
  - unfold push. rewrite lookup_app_l; [done|]. by eapply lookup_lt_Some.
  - apply find_update_lookup_skip; [done|]. unfold codeMatches. by rewrite Hu, andb_false_r.
Qed.

Lemma ticketsFreshBy_mono t t' st : (t <= t')%Z -> ticketsFreshBy t st -> ticketsFreshBy t' st.
Proof. intros Hle Hf. eapply Forall_impl; [exact Hf|]. intros k [Hk Hl]. split; [done|lia]. Qed.

Lemma dispatch_tickets_fresh env c (ls : LS) st t :
  holds ls st -> ticketsFreshBy t st -> (t <= env.(now))%Z -> wellStamped env.(now) c ->
  exists st', holds (snd (dispatch env c ls)) st' /\ ticketsFreshBy env.(now) st'.
Proof.
  intros Hst Hf Hle Hw. destruct c; run_dispatch Hst; repeat (case_match; simplify_eq/=);
    close_doc Hst; unfold ticketsFreshBy in *; simpl;
    try (eapply ticketsFreshBy_mono; [exact Hle|exact Hf]).
  - apply Forall_app. split; [eapply ticketsFreshBy_mono; [exact Hle|exact Hf]|].
    destruct Hw. by repeat constructor.
  - apply Forall_find_update; [eapply ticketsFreshBy_mono; [exact Hle|exact Hf]|].
    intros k _ [Hk Hk']. split; [|simpl; lia]. by apply ticketFresh_addTicketMessage_step.
  - apply Forall_find_update; [eapply ticketsFreshBy_mono; [exact Hle|exact Hf]|].
    intros k _ [Hk Hk']. split; [|simpl; lia]. by apply ticketFresh_closeAt_step.
Qed.

(** C16: under a clock that never goes back and well-stamped calls, every
    ticket of every reached storage satisfies the spec's invariant
    ([lastUpdated] at least the timestamp of each of its messages) and was
    stamped no later than the last clock reading. *)
Theorem clockedRun_tickets_fresh (ls0 ls : LS) st0 t0 t :
  holds ls0 st0 -> ticketsFreshBy t0 st0 -> clockedRun ls0 t0 t ls ->
  exists st, holds ls st /\ ticketsFreshBy t st.
Proof.
  intros H0 Hf0 Hr. induction Hr as [|t ls env c _ (st & Hst & Hf) Hle Hw]; [by exists st0|].
  by apply (dispatch_tickets_fresh env c ls st t).
Qed.
(** C5: credits never become negative through a purchase, an approval or a
    redemption: from a document whose credits and amounts are all
    non-negative, every call that brings no negative amount in leaves them
    non-negative.  (A negative [updateUserCredits] amount is the only way
    down below zero.) *)
Theorem dispatch_nonNegative env c (ls : LS) st :
  holds ls st -> nonNegative st -> fundedCall c ->
  exists st', holds (snd (dispatch env c ls)) st' /\ nonNegative st'.
Proof.
  intros Hst (Hu & Ht & Hc) Hf. destruct c; run_dispatch Hst; repeat (case_match; simplify_eq/=);
    close_doc Hst; unfold nonNegative; simpl; (split; [|split]); try done;
    try (apply Forall_app; split; [done|by repeat constructor]).
  all: apply Forall_find_update; [done|]; intros x Hx Hx0; simpl; try exact Hx0.
  - (* updateUserCredits with a non-negative amount *)
    simpl in Hf. lia.
  - (* processPurchase: the buyer could afford the price of the item *)
    match goal with H : Z.ltb _ _ = false |- _ => apply Z.ltb_ge in H end.
    match goal with H : fulfil _ = Some (_, _) |- _ =>
      destruct (fulfil_item_fields _ _ _ H) as (_ & _ & -> & _) end.
    match goal with
    | H : find (userById ?a) ?l = Some ?u, H' : find (userById ?a) ?l = Some ?x
      |- (0 <= User.credits ?x - _)%Z => assert (u = x) as <- by congruence; lia
    end.
  - (* updateTransactionStatus: the credited amount is the transaction's *)
    eapply Forall_forall in Ht; [|eapply find_elem_of; eassumption]. simpl in Ht. lia.
  - (* redeem: the credited amount is the code's *)
    eapply Forall_forall in Hc; [|eapply find_elem_of; eassumption]. simpl in Hc. lia.
Qed.

(** C7: every stored item's [deliveredCount] equals its number of
    delivered units, after any call that stores only consistent items:
    a SEQUENTIAL purchase marks exactly one unit and counts exactly one. *)
Theorem dispatch_counts_consistent env c (ls : LS) st :
  holds ls st -> Forall countConsistent st.(items) -> wellCounted c ->
  exists st', holds (snd (dispatch env c ls)) st' /\ Forall countConsistent st'.(items).
Proof.
  intros Hst Hi Hw. destruct c; run_dispatch Hst; repeat (case_match; simplify_eq/=);
    close_doc Hst; simpl; try done.
  - apply Forall_app. split; [done|by repeat constructor].
  - by apply Forall_insert.
  - apply Forall_forall. intros x Hx. apply list_elem_of_In, filter_In in Hx as [Hx _].
    eapply Forall_forall; [exact Hi|]. by apply list_elem_of_In.
  - apply Forall_find_update; [done|]. intros x Hx Hx0.
    match goal with
    | H : find (itemById ?a) ?l = Some ?y, Hf : fulfil ?y = Some _ |- _ =>
        assert (y = x) as -> by congruence; by eapply fulfil_countConsistent
    end.
Qed.

Lemma length_filter_In {A} (f : A -> bool) l x : In x l -> f x = true -> 1 <= length (List.filter f l).
Proof.
  intros Hin Hf. destruct (List.filter f l) eqn:E; [|simpl; lia].
  exfalso. assert (In x (List.filter f l)) as H by (apply filter_In; done). by rewrite E in H.
Qed.

(** C29: [isDelivered] is not a latch of the store: for every document in
    which the unit [c] of an item was already sold, an [updateItem] that
    re-saves the item with [c] undelivered first lets the next purchase
    deliver [c] again, so the purchase log records the same unit twice. *)
Theorem updateItem_redelivers_unit env (ls : LS) st uid u old it c rest :
  holds ls st -> find (userById uid) st.(users) = Some u ->
  find (itemById it.(Item.id)) st.(items) = Some old ->
  (exists p, In p st.(purchases) /\ soldUnit it.(Item.id) c p = true) ->
  it.(Item.type) = ItemType.SEQUENTIAL ->
  it.(Item.sequentialItems) = Some (SequentialItem.mkSequentialItem c false :: rest) ->
  (it.(Item.price) <= u.(User.credits))%Z ->
  exists ls' st', (updateItem it;; processPurchase env uid it.(Item.id)) ls = (inr (purchaseOk c), ls') /\
    holds ls' st' /\ 2 <= length (List.filter (soldUnit it.(Item.id) c) st'.(purchases)).
Proof.
  intros Hst Hu Hold [p [Hp Hsold]] Ht Hs Hle.
  destruct (updateItem_found_step ls st it old Hst Hold) as (l1 & l2 & _ & Hl1 & Hupd).
  set (st2 := set_items (fun _ => l1 ++ it :: l2) st).
  assert (Hi2 : find (itemById it.(Item.id)) st2.(items) = Some it).
  { simpl. rewrite find_app_Forall.
    - simpl. unfold itemById. by rewrite bool_decide_eq_true_2.
    - eapply Forall_impl; [exact Hl1|]. intros i Hi. unfold itemById. by apply bool_decide_eq_false_2. }
  pose proof (fulfil_sequential it [] _ rest Ht Hs (List.Forall_nil _) eq_refl) as Hf.
  destruct (processPurchase_success_step env uid it.(Item.id) (saved ls st2) st2 u it _ _
    (holds_saved _ _) Hu Hi2 Hle Hf) as (st3 & Hrun & Hst3 & _ & _ & Hlog & _).
  exists (saved (saved ls st2) st3), st3. split; [by rewrite (bind_step _ _ _ _ _ Hupd)|].
  split; [exact Hst3|]. rewrite Hlog. simpl. rewrite List.filter_app, length_app.
  pose proof (length_filter_In _ _ _ Hp Hsold).
  unfold soldUnit at 2. simpl. rewrite bool_decide_eq_true_2 by done. simpl. lia.
Qed.
End Invariants.

Section Refinement.
Context {LS1 V1 LS2 V2 : Type}.
Context `{!Storage LS1 V1} `{!Codec V1} `{!StorageLaws LS1 V1} `{!CodecLaws V1}.
Context `{!Storage LS2 V2} `{!Codec V2} `{!StorageLaws LS2 V2} `{!CodecLaws V2}.

Lemma dispatch_same_document env c (ls1 : LS1) (ls2 : LS2) st :
  holds ls1 st -> holds ls2 st ->
  fst (dispatch env c ls1) = fst (dispatch env c ls2) /\
  exists st', holds (snd (dispatch env c ls1)) st' /\ holds (snd (dispatch env c ls2)) st'.
Proof.
  intros H1 H2. destruct c; run_dispatch H1; rewrite ?(getInitialState_holds _ _ H2); cbn beta iota zeta;
    repeat (case_match; simplify_eq/=); (split; [reflexivity|]);
    eexists; split; first [apply holds_saved | eassumption].
Qed.

Lemma runCalls_same_document calls (ls1 : LS1) (ls2 : LS2) st :
  holds ls1 st -> holds ls2 st ->
  fst (runCalls calls ls1) = fst (runCalls calls ls2) /\
  exists st', holds (snd (runCalls calls ls1)) st' /\ holds (snd (runCalls calls ls2)) st'.
Proof.
  revert ls1 ls2 st. induction calls as [|[env c] calls IH]; intros ls1 ls2 st H1 H2.
  - split; [done|]. by exists st.
  - destruct (dispatch_shape env c ls1 st H1) as (r1 & Hd1).
    destruct (dispatch_same_document env c ls1 ls2 st H1 H2) as (Hr & st' & H1' & H2').
    destruct (dispatch env c ls1) as [o1 ls1'] eqn:E1, (dispatch env c ls2) as [o2 ls2'] eqn:E2.
    simpl in Hr, H1', H2'. subst o2.
    assert (o1 = inr r1) as -> by (destruct Hd1 as [Hd|(? & Hd)]; congruence).
    cbn [runCalls]. rewrite (bind_step _ _ _ _ _ E1), (bind_step _ _ _ _ _ E2).
    destruct (IH ls1' ls2' st' H1' H2') as (Hrs & st'' & H1'' & H2'').
    destruct (runCalls calls ls1') as [p1 l1] eqn:F1, (runCalls calls ls2') as [p2 l2] eqn:F2.
    simpl in Hrs, H1'', H2''. subst p2. unfold mbind, DB_bind. rewrite F1, F2.
    destruct p1; simpl; [|split; [done|]]; eauto.
Qed.
(** storage independence (a simulation between any two lawful
    storages): two storages that hold the same document answer every
    trace of calls with the same responses, and hold the same document
    after it.  In particular [DB] over [localStorage] with JSON behaves as
    the in-memory document store. *)
Theorem runCalls_storage_independent calls (ls1 : LS1) (ls2 : LS2) st :
  holds ls1 st -> holds ls2 st ->
  fst (runCalls calls ls1) = fst (runCalls calls ls2) /\
  exists st', holds (snd (runCalls calls ls1)) st' /\ holds (snd (runCalls calls ls2)) st'.
Proof. apply runCalls_same_document. Qed.

End Refinement.

(** ** Witnesses *)

Lemma reachable_holds_witness :
  exists st, holds (snd (dispatch demoEnv (AddUser demoUser) firstRun)) st.
Proof.
  apply (reachable_holds firstRun _ initialState); [by apply holds_fresh|].
  apply reachable_step, reachable_start.
Defined.

Lemma dispatch_purchases_prefix_witness :
  exists st', holds (snd (dispatch demoEnv (ProcessPurchase "U" "I") demoStorage)) st' /\
    demoState.(purchases) `prefix_of` st'.(purchases).
Proof. apply dispatch_purchases_prefix. witness_premise. Defined.

Lemma dispatch_used_codes_stay_witness :
  exists st', holds (snd (dispatch demoEnv (Redeem "U" "WELCOME10") demoCodeStorage)) st' /\
    forall i code, (set_redeemCodes (fun _ => [demoWelcome]) demoState).(redeemCodes) !! i = Some code ->
      code.(RedeemCode.isUsed) = true -> st'.(redeemCodes) !! i = Some code.
Proof. apply dispatch_used_codes_stay. witness_premise. Defined.

Lemma clockedRun_tickets_fresh_witness :
  exists st, holds (snd (dispatch demoClock (AddTicketMessage "K" demoMessage) demoTicketStorage)) st /\
    ticketsFreshBy 2000 st.
Proof.
  apply (clockedRun_tickets_fresh demoTicketStorage _ demoTicketState 1000); [witness_premise| |].
  - unfold ticketsFreshBy. simpl. repeat constructor. simpl. lia.
  - change 2000%Z with demoClock.(now).
    apply (clocked_step demoTicketStorage 1000 1000); [apply clocked_start|witness_premise|].
    simpl. lia.
Defined.

Lemma runCalls_storage_independent_witness :
  fst (runCalls demoCalls demoStorage) = fst (runCalls demoCalls demoStorage2) /\
  exists st', holds (snd (runCalls demoCalls demoStorage)) st' /\
    holds (snd (runCalls demoCalls demoStorage2)) st'.
Proof. apply (runCalls_storage_independent _ _ _ demoState); witness_premise. Defined.


Lemma dispatch_nonNegative_witness :
  exists st', holds (snd (dispatch demoEnv (ProcessPurchase "U" "I") demoStorage)) st' /\ nonNegative st'.
Proof.
  apply (dispatch_nonNegative demoEnv _ demoStorage demoState); [witness_premise| |done].
  unfold nonNegative. simpl. repeat split; repeat constructor; simpl; lia.
Defined.

Lemma dispatch_counts_consistent_witness :
  exists st', holds (snd (dispatch demoEnv (ProcessPurchase "U" "S") demoStorage)) st' /\
    Forall countConsistent st'.(items).
Proof.
  apply (dispatch_counts_consistent demoEnv _ demoStorage demoState); [witness_premise| |done].
  simpl. repeat constructor.
Defined.

Lemma updateItem_redelivers_unit_witness :
  exists ls' st', (updateItem demoRestock;; processPurchase demoEnv "U" "S") demoAfterSale =
      (inr (purchaseOk "K1"), ls') /\
    holds ls' st' /\ 2 <= length (List.filter (soldUnit "S" "K1") st'.(purchases)).
Proof.
  apply (updateItem_redelivers_unit demoEnv demoAfterSale demoAfterSaleState "U" (debit 10 demoUser)
    demoSoldItem demoRestock "K1" []); try witness_premise.
  exists demoSoldK1. split; [by left|witness_premise].
Defined.
