(* ===== verification/JsonCodec.v ===== *)
(** * JsonCodec: the document as the JSON text [localStorage] holds

    [saveState] stores [JSON.stringify(state)] and [getInitialState] reads
    [JSON.parse(stored)] back (db.ts lines 19-34).  This file gives the
    document's JSON form ([encode_state]: every record as an object with
    the fields of [types.ts] in declaration order, an optional field left
    out when [undefined], as [JSON.stringify] leaves it out; every string
    enum as its string value) and the reading of a parsed value as a
    document ([decode_state]: a member is looked up by key, the last of
    duplicate keys winning as in [JSON.parse]).  [json_codec] is the codec
    of the real program: values are strings, [truthy] is JavaScript's
    truthiness of a string (non-empty), and its laws are the round trip of
    the text ([json_codec_roundtrip]).  [document_text_roundtrip] states
    it at the level of the code: on [localStorage] of JSON text,
    [saveState] then [getInitialState] gives the document back.  With
    [localStorage_storage] at
    [V := string] it is the browser's storage; every theorem of the
    development stated for a lawful storage and codec holds for it, and
    [fresh_run_json_refines] shows the program over JSON text answers as
    the in-memory document model does.

    A text that is valid JSON but not a document of this shape is read as
    no document ([decode_state] fails) and makes the method throw; the
    code would instead go on with the malformed object.  Members the data
    model does not have are ignored when reading and so are not written
    back. *)

From stdpp Require Import gmap.
From S2P Require Import Prelude Json Types Storage StateStore Users Purchases.
From S2P Require Import Items Transactions RedeemCodes Tickets Facade.

(** ** String enums *)

Definition role_text (r : UserRole) : string :=
  match r with UserRole.USER => "USER" | UserRole.ADMIN => "ADMIN" end.

Definition role_of_text (s : string) : option UserRole :=
  if String.eqb s "USER" then Some UserRole.USER
  else if String.eqb s "ADMIN" then Some UserRole.ADMIN
  else None.

Definition itemType_text (t : ItemType) : string :=
  match t with ItemType.INSTANT => "INSTANT" | ItemType.SEQUENTIAL => "SEQUENTIAL" end.

Definition itemType_of_text (s : string) : option ItemType :=
  if String.eqb s "INSTANT" then Some ItemType.INSTANT
  else if String.eqb s "SEQUENTIAL" then Some ItemType.SEQUENTIAL
  else None.

Definition txStatus_text (t : TransactionStatus) : string :=
  match t with
  | TransactionStatus.PENDING => "PENDING"
  | TransactionStatus.APPROVED => "APPROVED"
  | TransactionStatus.REJECTED => "REJECTED"
  end.

Definition txStatus_of_text (s : string) : option TransactionStatus :=
  if String.eqb s "PENDING" then Some TransactionStatus.PENDING
  else if String.eqb s "APPROVED" then Some TransactionStatus.APPROVED
  else if String.eqb s "REJECTED" then Some TransactionStatus.REJECTED
  else None.

Definition ticketStatus_text (t : TicketStatus) : string :=
  match t with TicketStatus.OPEN => "OPEN" | TicketStatus.CLOSED => "CLOSED" end.

Definition ticketStatus_of_text (s : string) : option TicketStatus :=
  if String.eqb s "OPEN" then Some TicketStatus.OPEN
  else if String.eqb s "CLOSED" then Some TicketStatus.CLOSED
  else None.

(** ** [JSON.stringify] of the document's records *)

(** An optional property: absent when [undefined]. *)
Definition opt_member {A} (k : string) (f : A -> json) (o : option A) : list (string * json) :=
  match o with Some x => [(k, f x)] | None => [] end.

Definition encode_user (u : User) : json :=
  JObject [("id", JString u.(User.id)); ("role", JString (role_text u.(User.role)));
           ("credits", JNumber u.(User.credits))].

Definition encode_sequential (si : SequentialItem) : json :=
  JObject [("content", JString si.(SequentialItem.content));
           ("isDelivered", JBool si.(SequentialItem.isDelivered))].

Definition encode_item (it : Item) : json :=
  JObject ([("id", JString it.(Item.id)); ("name", JString it.(Item.name));
            ("price", JNumber it.(Item.price)); ("type", JString (itemType_text it.(Item.type)))] ++
           opt_member "content" JString it.(Item.content) ++
           opt_member "sequentialItems" (fun l => JArray (map encode_sequential l)) it.(Item.sequentialItems) ++
           [("deliveredCount", JNumber it.(Item.deliveredCount))]).

Definition encode_purchase (p : Purchase) : json :=
  JObject [("id", JString p.(Purchase.id)); ("userId", JString p.(Purchase.userId));
           ("itemId", JString p.(Purchase.itemId)); ("itemName", JString p.(Purchase.itemName));
           ("contentDelivered", JString p.(Purchase.contentDelivered));
           ("timestamp", JNumber p.(Purchase.timestamp)); ("price", JNumber p.(Purchase.price))].

Definition encode_transaction (t : Transaction) : json :=
  JObject [("id", JString t.(Transaction.id)); ("userId", JString t.(Transaction.userId));
           ("amount", JNumber t.(Transaction.amount));
           ("status", JString (txStatus_text t.(Transaction.status)))].

Definition encode_redeemCode (c : RedeemCode) : json :=
  JObject [("code", JString c.(RedeemCode.code)); ("amount", JNumber c.(RedeemCode.amount));
           ("isUsed", JBool c.(RedeemCode.isUsed))].

Definition encode_message (m : TicketMessage) : json :=
  JObject [("sender", JString m.(TicketMessage.sender)); ("content", JString m.(TicketMessage.content));
           ("timestamp", JNumber m.(TicketMessage.timestamp))].

Definition encode_ticket (t : Ticket) : json :=
  JObject [("id", JString t.(Ticket.id)); ("messages", JArray (map encode_message t.(Ticket.messages)));
           ("status", JString (ticketStatus_text t.(Ticket.status)));
           ("lastUpdated", JNumber t.(Ticket.lastUpdated))].

Definition encode_state (st : DBState) : json :=
  JObject [("users", JArray (map encode_user st.(users)));
           ("items", JArray (map encode_item st.(items)));
           ("purchases", JArray (map encode_purchase st.(purchases)));
           ("transactions", JArray (map encode_transaction st.(transactions)));
           ("redeemCodes", JArray (map encode_redeemCode st.(redeemCodes)));
           ("tickets", JArray (map encode_ticket st.(tickets)))].

(** ** Reading a parsed value as a document *)

(** Property access on a parsed object: the last member with the key. *)
Fixpoint member (k : string) (l : list (string * json)) : option json :=
  match l with
  | [] => None
  | (k', v) :: l' =>
      match member k l' with
      | Some v' => Some v'
      | None => if String.eqb k' k then Some v else None
      end
  end.

Definition as_string (v : json) : option string := match v with JString s => Some s | _ => None end.
Definition as_number (v : json) : option Z := match v with JNumber z => Some z | _ => None end.
Definition as_bool (v : json) : option bool := match v with JBool b => Some b | _ => None end.
Definition as_list {A} (dec : json -> option A) (v : json) : option (list A) :=
  match v with JArray l => mapM dec l | _ => None end.

Definition get {A} (dec : json -> option A) (k : string) (l : list (string * json)) : option A :=
  member k l ≫= dec.

(** An optional property: [undefined] when absent. *)
Definition get_opt {A} (dec : json -> option A) (k : string) (l : list (string * json)) : option (option A) :=
  match member k l with None => Some None | Some v => Some <$> dec v end.

Definition decode_user (v : json) : option User :=
  match v with
  | JObject l =>
      id ← get as_string "id" l; role ← get (fun v => as_string v ≫= role_of_text) "role" l;
      credits ← get as_number "credits" l;
      Some (User.mkUser id role credits)
  | _ => None
  end.

Definition decode_sequential (v : json) : option SequentialItem :=
  match v with
  | JObject l =>
      c ← get as_string "content" l; d ← get as_bool "isDelivered" l;
      Some (SequentialItem.mkSequentialItem c d)
  | _ => None
  end.

Definition decode_item (v : json) : option Item :=
  match v with
  | JObject l =>
      id ← get as_string "id" l; name ← get as_string "name" l; price ← get as_number "price" l;
      type ← get (fun v => as_string v ≫= itemType_of_text) "type" l;
      content ← get_opt as_string "content" l;
      sis ← get_opt (as_list decode_sequential) "sequentialItems" l;
      dc ← get as_number "deliveredCount" l;
      Some (Item.mkItem id name price type content sis dc)
  | _ => None
  end.

Definition decode_purchase (v : json) : option Purchase :=
  match v with
  | JObject l =>
      id ← get as_string "id" l; uid ← get as_string "userId" l; iid ← get as_string "itemId" l;
      name ← get as_string "itemName" l; c ← get as_string "contentDelivered" l;
      ts ← get as_number "timestamp" l; price ← get as_number "price" l;
      Some (Purchase.mkPurchase id uid iid name c ts price)
  | _ => None
  end.

Definition decode_transaction (v : json) : option Transaction :=
  match v with
  | JObject l =>
      id ← get as_string "id" l; uid ← get as_string "userId" l; amount ← get as_number "amount" l;
      status ← get (fun v => as_string v ≫= txStatus_of_text) "status" l;
      Some (Transaction.mkTransaction id uid amount status)
  | _ => None
  end.

Definition decode_redeemCode (v : json) : option RedeemCode :=
  match v with
  | JObject l =>
      c ← get as_string "code" l; amount ← get as_number "amount" l; used ← get as_bool "isUsed" l;
      Some (RedeemCode.mkRedeemCode c amount used)
  | _ => None
  end.

Definition decode_message (v : json) : option TicketMessage :=
  match v with
  | JObject l =>
      sender ← get as_string "sender" l; c ← get as_string "content" l; ts ← get as_number "timestamp" l;
      Some (TicketMessage.mkTicketMessage sender c ts)
  | _ => None
  end.

Definition decode_ticket (v : json) : option Ticket :=
  match v with
  | JObject l =>
      id ← get as_string "id" l; msgs ← get (as_list decode_message) "messages" l;
      status ← get (fun v => as_string v ≫= ticketStatus_of_text) "status" l;
      lu ← get as_number "lastUpdated" l;
      Some (Ticket.mkTicket id msgs status lu)
  | _ => None
  end.

Definition decode_state (v : json) : option DBState :=
  match v with
  | JObject l =>
      users ← get (as_list decode_user) "users" l;
      items ← get (as_list decode_item) "items" l;
      purchases ← get (as_list decode_purchase) "purchases" l;
      transactions ← get (as_list decode_transaction) "transactions" l;
      redeemCodes ← get (as_list decode_redeemCode) "redeemCodes" l;
      tickets ← get (as_list decode_ticket) "tickets" l;
      Some (mkDBState users items purchases transactions redeemCodes tickets)
  | _ => None
  end.

(** ** The codec of the program *)

#[export] Instance json_codec : Codec string := {|
  stringify st := json_stringify (encode_state st);
  parse s := json_parse s ≫= decode_state;
  truthy s := negb (String.eqb s "")
|}.

(** A blob that [JSON.parse] rejects. *)
Definition demoCorrupt : gmap string string := <[STORAGE_KEY := "{"]> ∅.

(** ** Round trips *)

Lemma mapM_map_some {A} (dec : json -> option A) (enc : A -> json) l :
  (forall x, dec (enc x) = Some x) -> mapM dec (map enc l) = Some l.
Proof. intros H. induction l as [|x l IH]; [done|]. simpl. by rewrite H, IH. Qed.

Lemma as_list_map {A} (dec : json -> option A) (enc : A -> json) l :
  (forall x, dec (enc x) = Some x) -> as_list dec (JArray (map enc l)) = Some l.
Proof. apply mapM_map_some. Qed.

Lemma decode_encode_user u : decode_user (encode_user u) = Some u.
Proof. by destruct u as [? [] ?]. Qed.

Lemma decode_encode_sequential si : decode_sequential (encode_sequential si) = Some si.
Proof. by destruct si. Qed.

Lemma decode_encode_item it : decode_item (encode_item it) = Some it.
Proof.
  destruct it as [id name price type content [sis|] dc]; destruct type, content; try done;
    cbn; by rewrite mapM_map_some by exact decode_encode_sequential.
Qed.

Lemma decode_encode_purchase p : decode_purchase (encode_purchase p) = Some p.
Proof. by destruct p. Qed.

Lemma decode_encode_transaction t : decode_transaction (encode_transaction t) = Some t.
Proof. by destruct t as [? ? ? []]. Qed.

Lemma decode_encode_redeemCode c : decode_redeemCode (encode_redeemCode c) = Some c.
Proof. by destruct c. Qed.

Lemma decode_encode_message m : decode_message (encode_message m) = Some m.
Proof. by destruct m. Qed.

Lemma decode_encode_ticket t : decode_ticket (encode_ticket t) = Some t.
Proof.
  destruct t as [id msgs [] lu]; cbn; by rewrite mapM_map_some by exact decode_encode_message.
Qed.

Lemma decode_encode_state st : decode_state (encode_state st) = Some st.
Proof.
  destruct st as [us its ps txs cs ts]. unfold decode_state, encode_state. cbn -[as_list].
  rewrite (as_list_map _ _ us decode_encode_user), (as_list_map _ _ its decode_encode_item),
    (as_list_map _ _ ps decode_encode_purchase), (as_list_map _ _ txs decode_encode_transaction),
    (as_list_map _ _ cs decode_encode_redeemCode), (as_list_map _ _ ts decode_encode_ticket).
  done.
Qed.

Lemma json_codec_roundtrip st : json_parse (json_stringify (encode_state st)) ≫= decode_state = Some st.
Proof. rewrite json_roundtrip. apply decode_encode_state. Qed.

(** The program's storage on first run: [localStorage] holds nothing. *)
Lemma fresh_holds_json : holds (∅ : gmap string string) initialState.
Proof. by apply holds_fresh. Qed.

Lemma fresh_holds_document : holds (∅ : gmap string DBState) initialState.
Proof. by apply holds_fresh. Qed.

(** Loading a stored blob that is truthy but not a document throws. *)
Lemma getInitialState_unreadable `{!Storage LS V} `{!Codec V} (ls : LS) b :
  getItem ls STORAGE_KEY = Some b -> truthy b = true -> parse b = None ->
  getInitialState ls = (inl SyntaxError, ls).
Proof. intros Hg Ht Hp. unfold getInitialState. by rewrite Hg, Ht, Hp. Qed.

(** The text [JSON.stringify] gives a document is never empty (it starts
    with [{]), so [getInitialState] does not mistake it for no document. *)
Lemma json_stringify_state_truthy st : negb (String.eqb (json_stringify (encode_state st)) "") = true.
Proof. destruct st. reflexivity. Qed.

(** C4: on the browser's [localStorage] of JSON text, [saveState(state)]
    followed by [getInitialState()] yields [state] again, for every
    document and every prior content of the storage, and leaves the key
    [STORAGE_KEY] holding [JSON.stringify(state)] with every other key as
    it was. *)
Theorem document_text_roundtrip (ls : gmap string string) st :
  (saveState st;; getInitialState) ls =
    (inr st, <[STORAGE_KEY := json_stringify (encode_state st)]> ls).
Proof.
  unfold mbind, DB_bind, saveState, saved, getInitialState. cbn [fst snd].
  change (getItem ?l ?k) with (l !! k). change (setItem ?l ?k ?v) with (<[k := v]> l).
  change (stringify st) with (json_stringify (encode_state st)).
  rewrite lookup_insert_eq.
  change (truthy (json_stringify (encode_state st))) with
    (negb (String.eqb (json_stringify (encode_state st)) "")).
  rewrite json_stringify_state_truthy.
  change (parse (json_stringify (encode_state st))) with
    (json_parse (json_stringify (encode_state st)) ≫= decode_state).
  by rewrite json_codec_roundtrip.
Qed.

#[export] Instance json_codec_laws : CodecLaws string.
Proof.
  split.
  - apply json_codec_roundtrip.
  - intros st. reflexivity.
Qed.

(** end to end, the program over the browser's [localStorage] of JSON
    text, from a first run, answers every sequence of calls exactly as the
    in-memory document model does. *)
Theorem fresh_run_json_refines calls :
  fst (runCalls calls (∅ : gmap string string)) = fst (runCalls calls (∅ : gmap string DBState)).
Proof. apply (runCalls_same_document calls _ _ initialState fresh_holds_json fresh_holds_document). Qed.

(** C17: a stored blob that is truthy and does not parse makes every
    method that reads the document throw [SyntaxError] (nothing catches
    it) and write nothing; only [verifyUser], which does not read storage,
    still answers. *)
Theorem dispatch_unreadable `{!Storage LS V} `{!Codec V} env c (ls : LS) b :
  getItem ls STORAGE_KEY = Some b -> truthy b = true -> parse b = None ->
  (forall token, c <> VerifyUser token) ->
  dispatch env c ls = (inl SyntaxError, ls).
Proof.
  intros Hg Ht Hp Hc. pose proof (getInitialState_unreadable ls b Hg Ht Hp) as Hs.
  destruct c; try (exfalso; by eapply Hc); cbn [dispatch]; unfold_methods;
    unfold mbind, DB_bind; rewrite Hs; reflexivity.
Qed.

Lemma dispatch_unreadable_witness :
  dispatch demoEnv GetUsers demoCorrupt = (inl SyntaxError, demoCorrupt).
Proof.
  apply (dispatch_unreadable demoEnv GetUsers demoCorrupt "{"); [vm_compute; reflexivity..|].
  intros token; discriminate.
Defined.
